(** * eRPC: the inline datapath helpers of [Rpc<TTr>] (src/rpc.h)

    A shallow embedding of the member functions that [rpc.h] defines inline:
    MsgBuffer allocation and burial, [release_respone], the two TX entry
    points [enqueue_pkt_tx_burst_st] and [tx_burst_now_st], [bump_credits]
    and the compile-time constant [kMaxMsgSize].

    Conventions.
    - [size_t] values are [Z] with the wrap-around modulo 2^64 written out
      ([size_t_wrap]).
    - Pointers are addresses in [Z]; [nullptr] is 0.  Objects reached through
      pointers live in a store ([Mem]) keyed by address, so that two pointers
      to the same object alias.
    - Member functions are computations in a state-and-error monad [M].  A
      failed [assert] aborts the computation ([AssertionFailure]), a C++
      exception is [RuntimeError], a dereference of an address that holds no
      object is [MemoryFault].
    - Calls into the external collaborators (the hugepage allocator and the
      transport) are recorded, in order, in the ghost field [trace]. *)

From Stdlib Require Import ZArith Lia.
From stdpp Require Import base gmap list.

Local Open Scope Z_scope.

Module ERpc.

(** ** Machine integers and pointers *)

Definition size_t_wrap (x : Z) : Z := x mod 2 ^ 64.
Definition size_t_max : Z := 2 ^ 64 - 1.
Definition nullptr : Z := 0.

(** ** Data model *)

(** [Buffer] (util/buffer.h): the allocation handle of the hugepage
    allocator.  [rpc.h] reads and writes its [buf] member only. *)
Record Buffer := { Buffer_buf : Z }.

(** [pkthdr_t] (pkthdr.h).  The fields are those of the packet-header table
    of the specification. *)
Inductive PktType := kPktTypeReq | kPktTypeResp | kPktTypeExplCR | kPktTypeReqForResp.

Record pkthdr_t := {
  magic : Z;
  req_type : Z;
  msg_size : Z;
  dest_session_num : Z;
  pkt_type : PktType;
  pkt_num : Z;
  req_num : Z
}.

(** [MsgBuffer] (msg_buffer.h).  [buffer] is the owning allocation (its [buf]
    is null for a fake buffer), [buf] the payload pointer. *)
Record MsgBuffer := {
  buffer : Buffer;
  buf : Z;
  max_data_size : Z;
  data_size : Z;
  max_num_pkts : Z;
  num_pkts : Z;
  pkts_queued : Z
}.

(** [Transport::tx_burst_item_t] (transport.h), with the members that
    [rpc.h] assigns. *)
Record tx_burst_item_t := {
  routing_info : Z;
  msg_buffer : Z;
  offset : Z;
  data_bytes : Z;
  drop : bool
}.

(** [SSlot] and [Session] (session.h), with the members that [rpc.h] uses.
    [session] and [tx_msgbuf] are pointers, [rx_msgbuf] is embedded. *)
Record SSlot := {
  index : Z;
  session : Z;
  tx_msgbuf : Z;
  rx_msgbuf : MsgBuffer
}.

Inductive Role := kServer | kClient.

Record Session := {
  role : Role;
  credits : Z;
  sslot_free_vec : list Z
}.

Definition is_client (s : Session) : bool :=
  match role s with kClient => true | kServer => false end.

(** The anonymous struct [faults] of [Rpc]. *)
Record faults_t := {
  resolve_server_rinfo : bool;
  drop_tx_local : bool;
  drop_tx_local_countdown : Z
}.

(** ** Compile-time parameters *)

(** The template parameter [TTr]: the static constants of the transport. *)
Class Transport := {
  kMaxDataPerPkt : Z;
  kPostlist : Z
}.

(** [HugeAlloc] (util/huge_alloc.h) is an external collaborator.  [alloc]
    returns a [Buffer] whose [buf] is null when memory is exhausted, or throws
    ([None]); [free_buf] returns a buffer to the allocator. *)
Class HugeAllocator := {
  HugeAlloc : Type;
  kMaxClassSize : Z;
  HugeAlloc_alloc : HugeAlloc → Z → option Buffer * HugeAlloc;
  HugeAlloc_free_buf : HugeAlloc → Buffer → HugeAlloc
}.

(** Constants of common.h, pkthdr.h and session.h, and the default
    constructor of [MsgBuffer], whose member values [rpc.h] does not fix. *)
Class Common := {
  sizeof_pkthdr_t : Z;
  kPktHdrMagic : Z;
  kMsgSizeBits : Z;
  kPktNumBits : Z;
  kSessionCredits : Z;
  kFaultInjection : bool;
  MsgBuffer_default : MsgBuffer
}.

(** ** Setters *)

Definition MsgBuffer_set_buf (p : Z) (m : MsgBuffer) : MsgBuffer :=
  {| buffer := buffer m; buf := p; max_data_size := max_data_size m;
     data_size := data_size m; max_num_pkts := max_num_pkts m;
     num_pkts := num_pkts m; pkts_queued := pkts_queued m |}.

Definition MsgBuffer_set_buffer_buf (p : Z) (m : MsgBuffer) : MsgBuffer :=
  {| buffer := {| Buffer_buf := p |}; buf := buf m;
     max_data_size := max_data_size m; data_size := data_size m;
     max_num_pkts := max_num_pkts m; num_pkts := num_pkts m;
     pkts_queued := pkts_queued m |}.

Definition MsgBuffer_set_pkts_queued (n : Z) (m : MsgBuffer) : MsgBuffer :=
  {| buffer := buffer m; buf := buf m; max_data_size := max_data_size m;
     data_size := data_size m; max_num_pkts := max_num_pkts m;
     num_pkts := num_pkts m; pkts_queued := n |}.

Definition pkthdr_set_magic (v : Z) (h : pkthdr_t) : pkthdr_t :=
  {| magic := v; req_type := req_type h; msg_size := msg_size h;
     dest_session_num := dest_session_num h; pkt_type := pkt_type h;
     pkt_num := pkt_num h; req_num := req_num h |}.

Definition SSlot_set_tx_msgbuf (p : Z) (s : SSlot) : SSlot :=
  {| index := index s; session := session s; tx_msgbuf := p;
     rx_msgbuf := rx_msgbuf s |}.

Definition SSlot_set_rx_msgbuf (m : MsgBuffer) (s : SSlot) : SSlot :=
  {| index := index s; session := session s; tx_msgbuf := tx_msgbuf s;
     rx_msgbuf := m |}.

Definition Session_set_credits (c : Z) (s : Session) : Session :=
  {| role := role s; credits := c; sslot_free_vec := sslot_free_vec s |}.

Definition Session_set_sslot_free_vec (v : list Z) (s : Session) : Session :=
  {| role := role s; credits := credits s; sslot_free_vec := v |}.

Definition item_set_routing_info (v : Z) (i : tx_burst_item_t) : tx_burst_item_t :=
  {| routing_info := v; msg_buffer := msg_buffer i; offset := offset i;
     data_bytes := data_bytes i; drop := drop i |}.

Definition item_set_msg_buffer (v : Z) (i : tx_burst_item_t) : tx_burst_item_t :=
  {| routing_info := routing_info i; msg_buffer := v; offset := offset i;
     data_bytes := data_bytes i; drop := drop i |}.

Definition item_set_offset (v : Z) (i : tx_burst_item_t) : tx_burst_item_t :=
  {| routing_info := routing_info i; msg_buffer := msg_buffer i; offset := v;
     data_bytes := data_bytes i; drop := drop i |}.

Definition item_set_data_bytes (v : Z) (i : tx_burst_item_t) : tx_burst_item_t :=
  {| routing_info := routing_info i; msg_buffer := msg_buffer i;
     offset := offset i; data_bytes := v; drop := drop i |}.

Definition item_set_drop (v : bool) (i : tx_burst_item_t) : tx_burst_item_t :=
  {| routing_info := routing_info i; msg_buffer := msg_buffer i;
     offset := offset i; data_bytes := data_bytes i; drop := v |}.

Definition faults_set_drop_tx_local (v : bool) (f : faults_t) : faults_t :=
  {| resolve_server_rinfo := resolve_server_rinfo f; drop_tx_local := v;
     drop_tx_local_countdown := drop_tx_local_countdown f |}.

Definition faults_set_drop_tx_local_countdown (v : Z) (f : faults_t) : faults_t :=
  {| resolve_server_rinfo := resolve_server_rinfo f;
     drop_tx_local := drop_tx_local f; drop_tx_local_countdown := v |}.

(** ** Program state *)

Inductive mutex := huge_alloc_lock | session_lock (session_ptr : Z).

#[global] Instance mutex_eq_dec : EqDecision mutex.
Proof. solve_decision. Defined.

(** Calls into the external collaborators, as the ghost log records them. *)
Inductive event :=
  | EvAlloc (size : Z)
  | EvFreeBuf (b : Buffer)
  | EvTxBurst (items : list tx_burst_item_t).

Section WithParams.
Context {TTr : Transport} {HA : HugeAllocator} {CM : Common}.

(** The data members of [Rpc] that the inline functions touch. *)
Record Rpc := {
  multi_threaded : bool;
  creator_tiny_tid : Z;
  tx_burst_arr : list tx_burst_item_t;
  tx_batch_i : Z;
  huge_alloc : HugeAlloc;
  faults : faults_t
}.

(** The objects behind the pointers: user MsgBuffers, session slots,
    sessions, and the packet headers stored in buffer memory. *)
Record Mem := {
  msgbufs : gmap Z MsgBuffer;
  sslots : gmap Z SSlot;
  sessions : gmap Z Session;
  pkthdrs : gmap Z pkthdr_t
}.

Record State := {
  rpc : Rpc;
  mem : Mem;
  tiny_tid : Z;          (* tls_registry->get_tiny_tid() of the caller *)
  held : list mutex;     (* mutexes currently locked *)
  trace : list event     (* ghost: calls to allocator and transport *)
}.

Definition Rpc_set_tx_burst_arr (v : list tx_burst_item_t) (r : Rpc) : Rpc :=
  {| multi_threaded := multi_threaded r; creator_tiny_tid := creator_tiny_tid r;
     tx_burst_arr := v; tx_batch_i := tx_batch_i r;
     huge_alloc := huge_alloc r; faults := faults r |}.

Definition Rpc_set_tx_batch_i (v : Z) (r : Rpc) : Rpc :=
  {| multi_threaded := multi_threaded r; creator_tiny_tid := creator_tiny_tid r;
     tx_burst_arr := tx_burst_arr r; tx_batch_i := v;
     huge_alloc := huge_alloc r; faults := faults r |}.

Definition Rpc_set_huge_alloc (v : HugeAlloc) (r : Rpc) : Rpc :=
  {| multi_threaded := multi_threaded r; creator_tiny_tid := creator_tiny_tid r;
     tx_burst_arr := tx_burst_arr r; tx_batch_i := tx_batch_i r;
     huge_alloc := v; faults := faults r |}.

Definition Rpc_set_faults (v : faults_t) (r : Rpc) : Rpc :=
  {| multi_threaded := multi_threaded r; creator_tiny_tid := creator_tiny_tid r;
     tx_burst_arr := tx_burst_arr r; tx_batch_i := tx_batch_i r;
     huge_alloc := huge_alloc r; faults := v |}.

Definition Mem_set_msgbufs (v : gmap Z MsgBuffer) (m : Mem) : Mem :=
  {| msgbufs := v; sslots := sslots m; sessions := sessions m;
     pkthdrs := pkthdrs m |}.

Definition Mem_set_sslots (v : gmap Z SSlot) (m : Mem) : Mem :=
  {| msgbufs := msgbufs m; sslots := v; sessions := sessions m;
     pkthdrs := pkthdrs m |}.

Definition Mem_set_sessions (v : gmap Z Session) (m : Mem) : Mem :=
  {| msgbufs := msgbufs m; sslots := sslots m; sessions := v;
     pkthdrs := pkthdrs m |}.

Definition Mem_set_pkthdrs (v : gmap Z pkthdr_t) (m : Mem) : Mem :=
  {| msgbufs := msgbufs m; sslots := sslots m; sessions := sessions m;
     pkthdrs := v |}.

Definition State_set_rpc (v : Rpc) (s : State) : State :=
  {| rpc := v; mem := mem s; tiny_tid := tiny_tid s; held := held s;
     trace := trace s |}.

Definition State_set_mem (v : Mem) (s : State) : State :=
  {| rpc := rpc s; mem := v; tiny_tid := tiny_tid s; held := held s;
     trace := trace s |}.

Definition State_set_held (v : list mutex) (s : State) : State :=
  {| rpc := rpc s; mem := mem s; tiny_tid := tiny_tid s; held := v;
     trace := trace s |}.

Definition State_set_trace (v : list event) (s : State) : State :=
  {| rpc := rpc s; mem := mem s; tiny_tid := tiny_tid s; held := held s;
     trace := v |}.

(** ** The state-and-error monad *)

Inductive exn := AssertionFailure | RuntimeError | MemoryFault.

Inductive outcome (A : Type) :=
  | Ok (a : A) (s : State)
  | Raise (e : exn).
Arguments Ok {A} a s.
Arguments Raise {A} e.

Definition M (A : Type) : Type := State → outcome A.

Definition ret {A} (a : A) : M A := λ s, Ok a s.

Definition bind {A B} (f : A → M B) (m : M A) : M B := λ s,
  match m s with
  | Ok a s' => f a s'
  | Raise e => Raise e
  end.

#[global] Instance M_ret : MRet M := @ret.
#[global] Instance M_bind : MBind M := @bind.

Definition gets {A} (f : State → A) : M A := λ s, Ok (f s) s.
Definition modify (f : State → State) : M unit := λ s, Ok tt (f s).
Definition throw {A} (e : exn) : M A := λ _, Raise e.

(** C's [assert(b)]. *)
Definition cassert (b : bool) : M unit :=
  if b then ret tt else throw AssertionFailure.

Definition emit (e : event) : M unit :=
  modify (λ s, State_set_trace (trace s ++ [e]) s).

Definition modify_rpc (f : Rpc → Rpc) : M unit :=
  modify (λ s, State_set_rpc (f (rpc s)) s).

Definition modify_mem (f : Mem → Mem) : M unit :=
  modify (λ s, State_set_mem (f (mem s)) s).

(** Dereference of a pointer into one of the stores. *)
Definition load {A} (store : Mem → gmap Z A) (p : Z) : M A := λ s,
  match store (mem s) !! p with
  | Some a => Ok a s
  | None => Raise MemoryFault
  end.


(** The element [arr[i]] of a C array held as a list; an index outside the
    array is undefined behaviour in C++ and a [MemoryFault] here. *)
Definition load_item (i : Z) : M tx_burst_item_t := λ s,
  match tx_burst_arr (rpc s) !! Z.to_nat i with
  | Some it => Ok it s
  | None => Raise MemoryFault
  end.

Definition update_item (i : Z) (f : tx_burst_item_t → tx_burst_item_t) : M unit :=
  it ← load_item i;
  modify_rpc (λ r, Rpc_set_tx_burst_arr (<[Z.to_nat i := f it]> (tx_burst_arr r)) r).

Definition update_msgbuf (p : Z) (f : MsgBuffer → MsgBuffer) : M unit :=
  m ← load msgbufs p;
  modify_mem (λ mm, Mem_set_msgbufs (<[p := f m]> (msgbufs mm)) mm).

Definition update_sslot (p : Z) (f : SSlot → SSlot) : M unit :=
  sl ← load sslots p;
  modify_mem (λ mm, Mem_set_sslots (<[p := f sl]> (sslots mm)) mm).

Definition update_session (p : Z) (f : Session → Session) : M unit :=
  se ← load sessions p;
  modify_mem (λ mm, Mem_set_sessions (<[p := f se]> (sessions mm)) mm).

(** ** External collaborators *)

(** [huge_alloc->alloc(size)]. *)
Definition huge_alloc_alloc (size : Z) : M Buffer := λ s,
  match HugeAlloc_alloc (huge_alloc (rpc s)) size with
  | (Some b, ha) =>
      Ok b (State_set_trace (trace s ++ [EvAlloc size])
              (State_set_rpc (Rpc_set_huge_alloc ha (rpc s)) s))
  | (None, _) => Raise RuntimeError
  end.

(** [huge_alloc->free_buf(b)]. *)
Definition huge_alloc_free_buf (b : Buffer) : M unit :=
  modify_rpc (λ r, Rpc_set_huge_alloc (HugeAlloc_free_buf (huge_alloc r) b) r) ;;
  emit (EvFreeBuf b).

(** [transport->tx_burst(tx_burst_arr, n)]: the transport is handed the
    first [n] items of the batch array. *)
Definition transport_tx_burst (n : Z) : M unit :=
  arr ← gets (λ s, tx_burst_arr (rpc s));
  emit (EvTxBurst (take (Z.to_nat n) arr)).

(** ** MsgBuffer members used by rpc.h *)

Definition pkthdr_zero : pkthdr_t :=
  {| magic := 0; req_type := 0; msg_size := 0; dest_session_num := 0;
     pkt_type := kPktTypeReq; pkt_num := 0; req_num := 0 |}.

(** Modelled from the spec: [MsgBuffer::is_dynamic] of msg_buffer.h, which is
    not among the sources.  The owning allocation handle is null for a fake
    buffer; the comments in the bury functions of rpc.h say the same (a
    MsgBuffer used dynamic allocation if its [buffer.buf] is non-NULL). *)
Definition is_dynamic (m : MsgBuffer) : bool :=
  negb (Buffer_buf (buffer m) =? nullptr).

(** Modelled from the spec: the zeroth packet header of a MsgBuffer is the one
    leading header slot, directly before the payload. *)
Definition get_pkthdr_0 (m : MsgBuffer) : Z := buf m - sizeof_pkthdr_t.

(** Modelled from the spec: [MsgBuffer::check_magic] of msg_buffer.h;
    header[0] carries the magic constant. *)
Definition check_magic (mm : Mem) (m : MsgBuffer) : bool :=
  match pkthdrs mm !! get_pkthdr_0 m with
  | Some h => magic h =? kPktHdrMagic
  | None => false
  end.

(** Modelled from the spec: [MsgBuffer::is_expl_cr] and
    [MsgBuffer::is_req_for_resp] of msg_buffer.h read the packet type of
    header[0]. *)
Definition is_expl_cr (mm : Mem) (m : MsgBuffer) : bool :=
  match pkthdrs mm !! get_pkthdr_0 m with
  | Some h => match pkt_type h with kPktTypeExplCR => true | _ => false end
  | None => false
  end.

Definition is_req_for_resp (mm : Mem) (m : MsgBuffer) : bool :=
  match pkthdrs mm !! get_pkthdr_0 m with
  | Some h => match pkt_type h with kPktTypeReqForResp => true | _ => false end
  | None => false
  end.

(** Modelled from the spec: the constructor
    [MsgBuffer(Buffer, max_data_size, max_num_pkts)] of msg_buffer.h.  The
    payload follows one leading packet-header slot, the data length starts at
    its maximum, nothing is queued, and the magic of header[0] is set (the
    documentation of [alloc_msg_buffer] in rpc.h states the last point). *)
Definition MsgBuffer_ctor (b : Buffer) (max_data_size max_num_pkts : Z) : M MsgBuffer :=
  modify_mem (λ mm,
    Mem_set_pkthdrs
      (<[Buffer_buf b :=
           pkthdr_set_magic kPktHdrMagic (default pkthdr_zero (pkthdrs mm !! Buffer_buf b))]>
         (pkthdrs mm)) mm) ;;
  ret {| buffer := b; buf := Buffer_buf b + sizeof_pkthdr_t;
          max_data_size := max_data_size; data_size := max_data_size;
          max_num_pkts := max_num_pkts; num_pkts := max_num_pkts;
          pkts_queued := 0 |}.

(** ** Misc private functions of Rpc *)

Definition in_creator : M bool :=
  gets (λ s, tiny_tid s =? creator_tiny_tid (rpc s)).

Fixpoint release (m : mutex) (l : list mutex) : list mutex :=
  match l with
  | [] => []
  | x :: l' => if decide (x = m) then l' else x :: release m l'
  end.

Definition lock_cond (m : mutex) : M unit :=
  mt ← gets (λ s, multi_threaded (rpc s));
  if (mt : bool) then modify (λ s, State_set_held (m :: held s) s) else ret tt.

Definition unlock_cond (m : mutex) : M unit :=
  mt ← gets (λ s, multi_threaded (rpc s));
  if (mt : bool) then modify (λ s, State_set_held (release m (held s)) s) else ret tt.

(** ** Constants *)

Definition kMaxMsgSize : Z :=
  size_t_wrap
    (kMaxClassSize -
     size_t_wrap (size_t_wrap (kMaxClassSize / kMaxDataPerPkt) * sizeof_pkthdr_t)).

(** The two [static_assert]s that follow [kMaxMsgSize]. *)
Definition static_assert_msg_size : bool :=
  kMaxMsgSize <=? size_t_wrap (Z.shiftl 1 kMsgSizeBits).

Definition static_assert_pkt_num : bool :=
  kMaxMsgSize <=? size_t_wrap (size_t_wrap (Z.shiftl 1 kPktNumBits) * kMaxDataPerPkt).

(** ** MsgBuffer management *)

Definition alloc_msg_buffer (max_data_size : Z) : M MsgBuffer :=
  let max_num_pkts :=
    if max_data_size <=? kMaxDataPerPkt then 1
    else size_t_wrap (max_data_size + size_t_wrap (kMaxDataPerPkt - 1)) / kMaxDataPerPkt in
  lock_cond huge_alloc_lock ;;
  buffer ← huge_alloc_alloc
             (size_t_wrap (max_data_size + size_t_wrap (max_num_pkts * sizeof_pkthdr_t)));
  unlock_cond huge_alloc_lock ;;
  if Buffer_buf buffer =? nullptr then
    let msg_buffer := MsgBuffer_default in
    ret (MsgBuffer_set_buf nullptr msg_buffer)
  else
    MsgBuffer_ctor buffer max_data_size max_num_pkts.

Definition free_msg_buffer (msg_buffer : MsgBuffer) : M unit :=
  mm ← gets mem;
  cassert (is_dynamic msg_buffer && check_magic mm msg_buffer) ;;
  lock_cond huge_alloc_lock ;;
  huge_alloc_free_buf (buffer msg_buffer) ;;
  unlock_cond huge_alloc_lock.

Definition bury_sslot_tx_msgbuf (sslot : Z) : M unit :=
  cassert (negb (sslot =? nullptr)) ;;
  sl ← load sslots sslot;
  let tx_msgbuf := tx_msgbuf sl in
  (if negb (tx_msgbuf =? nullptr) then
     m ← load msgbufs tx_msgbuf;
     if is_dynamic m then
       mm ← gets mem;
       cassert (negb (buf m =? nullptr) && check_magic mm m) ;;
       free_msg_buffer m
     else ret tt
   else ret tt) ;;
  update_sslot sslot (SSlot_set_tx_msgbuf nullptr).

Definition bury_sslot_tx_msgbuf_nofree (sslot : Z) : M unit :=
  cassert (negb (sslot =? nullptr)) ;;
  update_sslot sslot (SSlot_set_tx_msgbuf nullptr).

Definition bury_sslot_rx_msgbuf (sslot : Z) : M unit :=
  cassert (negb (sslot =? nullptr)) ;;
  sl ← load sslots sslot;
  (if is_dynamic (rx_msgbuf sl) then
     mm ← gets mem;
     cassert (negb (buf (rx_msgbuf sl) =? nullptr) && check_magic mm (rx_msgbuf sl)) ;;
     free_msg_buffer (rx_msgbuf sl) ;;
     update_sslot sslot
       (λ sl, SSlot_set_rx_msgbuf (MsgBuffer_set_buffer_buf nullptr (rx_msgbuf sl)) sl)
   else ret tt) ;;
  update_sslot sslot
    (λ sl, SSlot_set_rx_msgbuf (MsgBuffer_set_buf nullptr (rx_msgbuf sl)) sl).

Definition bury_sslot_rx_msgbuf_nofree (sslot : Z) : M unit :=
  cassert (negb (sslot =? nullptr)) ;;
  sl ← load sslots sslot;
  cassert (negb (is_dynamic (rx_msgbuf sl))) ;;
  update_sslot sslot
    (λ sl, SSlot_set_rx_msgbuf (MsgBuffer_set_buf nullptr (rx_msgbuf sl)) sl).

(** ** Rpc datapath *)

Definition release_respone (resp_handle : Z) : M unit :=
  cassert (negb (resp_handle =? nullptr)) ;;
  let sslot := resp_handle in
  sl ← load sslots sslot;
  cassert (tx_msgbuf sl =? nullptr) ;;
  mm ← gets mem;
  cassert (negb (buf (rx_msgbuf sl) =? nullptr) && check_magic mm (rx_msgbuf sl)) ;;
  bury_sslot_rx_msgbuf sslot ;;
  sl ← load sslots sslot;
  let session := session sl in
  (if session =? nullptr then throw AssertionFailure
   else se ← load sessions session; cassert (is_client se)) ;;
  lock_cond (session_lock session) ;;
  update_session session
    (λ se, Session_set_sslot_free_vec (sslot_free_vec se ++ [index sl]) se) ;;
  unlock_cond (session_lock session).

(** ** TX *)

(** The [erpc_dprintf] and [dpath_dprintf] lines only print and are left
    out. *)
Definition enqueue_pkt_tx_burst_st
    (routing_info tx_msgbuf offset data_bytes : Z) : M unit :=
  ic ← in_creator; cassert ic ;;
  cassert (negb (routing_info =? nullptr) && negb (tx_msgbuf =? nullptr)) ;;
  i ← gets (λ s, tx_batch_i (rpc s));
  cassert (i <? kPostlist) ;;
  update_item i (item_set_routing_info routing_info) ;;
  update_item i (item_set_msg_buffer tx_msgbuf) ;;
  update_item i (item_set_offset offset) ;;
  update_item i (item_set_data_bytes data_bytes) ;;
  (if kFaultInjection then
     f ← gets (λ s, faults (rpc s));
     if drop_tx_local f && (drop_tx_local_countdown f =? 0) then
       update_item i (item_set_drop true) ;;
       modify_rpc (λ r, Rpc_set_faults (faults_set_drop_tx_local false (faults r)) r)
     else if drop_tx_local f then
       cassert (0 <? drop_tx_local_countdown f) ;;
       modify_rpc (λ r,
         Rpc_set_faults
           (faults_set_drop_tx_local_countdown
              (size_t_wrap (drop_tx_local_countdown (faults r) - 1)) (faults r)) r) ;;
       update_item i (item_set_drop false)
     else
       update_item i (item_set_drop false)
   else
     it ← load_item i; cassert (negb (drop it))) ;;
  update_msgbuf tx_msgbuf
    (λ m, MsgBuffer_set_pkts_queued (size_t_wrap (pkts_queued m + 1)) m) ;;
  modify_rpc (λ r, Rpc_set_tx_batch_i (size_t_wrap (tx_batch_i r + 1)) r) ;;
  i' ← gets (λ s, tx_batch_i (rpc s));
  if i' =? kPostlist then
    transport_tx_burst kPostlist ;;
    modify_rpc (Rpc_set_tx_batch_i 0)
  else ret tt.

Definition tx_burst_now_st (routing_info tx_msgbuf : Z) : M unit :=
  ic ← in_creator; cassert ic ;;
  cassert (negb (routing_info =? nullptr) && negb (tx_msgbuf =? nullptr)) ;;
  i ← gets (λ s, tx_batch_i (rpc s));
  cassert (i <? kPostlist) ;;
  m ← load msgbufs tx_msgbuf;
  mm ← gets mem;
  cassert (is_expl_cr mm m || is_req_for_resp mm m) ;;
  update_item i (item_set_routing_info routing_info) ;;
  update_item i (item_set_msg_buffer tx_msgbuf) ;;
  update_item i (item_set_offset 0) ;;
  update_item i (item_set_data_bytes 0) ;;
  modify_rpc (λ r, Rpc_set_tx_batch_i (size_t_wrap (tx_batch_i r + 1)) r) ;;
  n ← gets (λ s, tx_batch_i (rpc s));
  transport_tx_burst n ;;
  modify_rpc (Rpc_set_tx_batch_i 0).

(** ** RX *)

Definition bump_credits (session : Z) : M unit :=
  se ← load sessions session;
  cassert (is_client se) ;;
  cassert (credits se <? kSessionCredits) ;;
  update_session session
    (λ se, Session_set_credits (size_t_wrap (credits se + 1)) se).

(** ** Fault injection *)

(** Modelled from the spec: [fault_inject_check_ok] and
    [fault_inject_drop_tx_local_st], whose bodies are not among the sources.
    Faults are usable from the creator thread only, behind a runtime check
    that throws; arming stores the number of packets to transmit before
    dropping one. *)
Definition fault_inject_check_ok : M unit :=
  ic ← in_creator;
  if (ic : bool) then ret tt else throw RuntimeError.

Definition fault_inject_drop_tx_local_st (pkt_countdown : Z) : M unit :=
  fault_inject_check_ok ;;
  modify_rpc (λ r,
    Rpc_set_faults
      (faults_set_drop_tx_local_countdown pkt_countdown
         (faults_set_drop_tx_local true (faults r))) r).

(** The argument that [alloc_msg_buffer] passes to [huge_alloc->alloc]. *)
Definition alloc_request_size (max_data_size : Z) : Z :=
  let max_num_pkts :=
    if max_data_size <=? kMaxDataPerPkt then 1
    else size_t_wrap (max_data_size + size_t_wrap (kMaxDataPerPkt - 1)) / kMaxDataPerPkt in
  size_t_wrap (max_data_size + size_t_wrap (max_num_pkts * sizeof_pkthdr_t)).

(** ** Vocabulary of the statements *)

(** The allocator calls that burying MsgBuffer [m] with a freeing bury
    function makes. *)
Definition free_events (m : MsgBuffer) : list event :=
  if is_dynamic m then [EvFreeBuf (buffer m)] else [].

(** The MsgBuffer behind the [tx_msgbuf] pointer of a slot, if any. *)
Definition tx_msgbuf_of (mm : Mem) (sl : SSlot) : option MsgBuffer :=
  if tx_msgbuf sl =? nullptr then None else msgbufs mm !! tx_msgbuf sl.

(** The allocator after [free_msg_buffer m], when [m] is dynamic. *)
Definition Rpc_after_bury (m : MsgBuffer) (r : Rpc) : Rpc :=
  if is_dynamic m
  then Rpc_set_huge_alloc (HugeAlloc_free_buf (huge_alloc r) (buffer m)) r
  else r.

(** The slot's RX MsgBuffer after [bury_sslot_rx_msgbuf]. *)
Definition buried_rx (m : MsgBuffer) : MsgBuffer :=
  MsgBuffer_set_buf nullptr
    (if is_dynamic m then MsgBuffer_set_buffer_buf nullptr m else m).

(** The arguments of one call of [enqueue_pkt_tx_burst_st]. *)
Record enqueue_args := {
  arg_routing_info : Z;
  arg_tx_msgbuf : Z;
  arg_offset : Z;
  arg_data_bytes : Z
}.

(** Consecutive calls of [enqueue_pkt_tx_burst_st], one per packet. *)
Fixpoint enqueue_all (pkts : list enqueue_args) : M unit :=
  match pkts with
  | [] => ret tt
  | a :: pkts' =>
      enqueue_pkt_tx_burst_st (arg_routing_info a) (arg_tx_msgbuf a)
        (arg_offset a) (arg_data_bytes a) ;;
      enqueue_all pkts'
  end.

(** The burst item that a call with arguments [a] writes, with drop flag
    [d]. *)
Definition item_of (a : enqueue_args) (d : bool) : tx_burst_item_t :=
  {| routing_info := arg_routing_info a; msg_buffer := arg_tx_msgbuf a;
     offset := arg_offset a; data_bytes := arg_data_bytes a; drop := d |}.

(** The items handed to the transport so far, in order. *)
Fixpoint burst_items (tr : list event) : list tx_burst_item_t :=
  match tr with
  | [] => []
  | EvTxBurst items :: tr' => items ++ burst_items tr'
  | _ :: tr' => burst_items tr'
  end.

(** Every packet that went through the batch array: those already handed to
    the transport, then those waiting in [tx_burst_arr[0 .. tx_batch_i)]. *)
Definition sent_items (st : State) : list tx_burst_item_t :=
  burst_items (trace st)
  ++ take (Z.to_nat (tx_batch_i (rpc st))) (tx_burst_arr (rpc st)).

(** The fault state and the drop flag that one call of
    [enqueue_pkt_tx_burst_st] produces from fault state [f]. *)
Definition enqueue_drops (f : faults_t) : bool :=
  kFaultInjection && drop_tx_local f && (drop_tx_local_countdown f =? 0).

Definition faults_after_enqueue (f : faults_t) : faults_t :=
  if kFaultInjection then
    if drop_tx_local f && (drop_tx_local_countdown f =? 0)
    then faults_set_drop_tx_local false f
    else if drop_tx_local f
    then faults_set_drop_tx_local_countdown
           (size_t_wrap (drop_tx_local_countdown f - 1)) f
    else f
  else f.

(** The state in which the datapath may enqueue a packet: the caller is the
    creator thread, the batch has room, [tx_burst_arr] has its [kPostlist]
    items, and the countdown is a [size_t]. *)
Definition tx_ready (st : State) : Prop :=
  tiny_tid st = creator_tiny_tid (rpc st)
  ∧ 0 ≤ tx_batch_i (rpc st) < kPostlist
  ∧ length (tx_burst_arr (rpc st)) = Z.to_nat kPostlist
  ∧ 0 ≤ drop_tx_local_countdown (faults (rpc st)) ≤ size_t_max.

(** Arguments that meet the assertions of [enqueue_pkt_tx_burst_st]. *)
Definition valid_args (mm : Mem) (a : enqueue_args) : Prop :=
  arg_routing_info a ≠ nullptr
  ∧ arg_tx_msgbuf a ≠ nullptr
  ∧ is_Some (msgbufs mm !! arg_tx_msgbuf a).

End WithParams.

Arguments Ok {HA A} a s.
Arguments Raise {HA A} e.

(** ** Further inline functions of rpc.h *)

(** [MsgBuffer::resize] of msg_buffer.h is not among the sources; it is a
    parameter, applied to the arguments that [resize_msg_buffer] passes. *)
Class MsgBufferOps := {
  MsgBuffer_resize : Z → Z → MsgBuffer → MsgBuffer
}.

Section MoreCode.
Context {TTr : Transport} {HA : HugeAllocator} {CM : Common} {MB : MsgBufferOps}.

Definition resize_msg_buffer (msg_buffer new_data_size : Z) : M unit :=
  cassert (negb (msg_buffer =? nullptr)) ;;
  m ← load msgbufs msg_buffer;
  mm ← gets mem;
  cassert (negb (buf m =? nullptr) && check_magic mm m) ;;
  cassert (new_data_size <=? max_data_size m) ;;
  let new_num_pkts :=
    if new_data_size <=? kMaxDataPerPkt then 1
    else size_t_wrap (new_data_size + size_t_wrap (kMaxDataPerPkt - 1)) / kMaxDataPerPkt in
  update_msgbuf msg_buffer (MsgBuffer_resize new_data_size new_num_pkts).

Definition in_background : M bool :=
  ic ← in_creator; ret (negb ic).

(** [is_usr_session_num_in_range], with the member [session_vec] as an
    argument; [session_num] is an [int], converted to [size_t] by the cast. *)
Definition is_usr_session_num_in_range (session_vec : list Z) (session_num : Z) : bool :=
  (0 <=? session_num)
  && (size_t_wrap session_num <? Z.of_nat (length session_vec)).

(** ** Runs of several calls *)

(** One TX call of the datapath: a deferred packet or a header-only packet
    sent at once. *)
Inductive tx_op :=
  | OpEnqueue (a : enqueue_args)
  | OpNow (routing_info tx_msgbuf : Z).

Definition run_op (op : tx_op) : M unit :=
  match op with
  | OpEnqueue a =>
      enqueue_pkt_tx_burst_st (arg_routing_info a) (arg_tx_msgbuf a)
        (arg_offset a) (arg_data_bytes a)
  | OpNow ri mb => tx_burst_now_st ri mb
  end.

Fixpoint run_ops (ops : list tx_op) : M unit :=
  match ops with
  | [] => ret tt
  | op :: ops' => run_op op ;; run_ops ops'
  end.

(** [n] calls of [bump_credits] on one session. *)
Fixpoint bump_credits_n (n : nat) (session : Z) : M unit :=
  match n with
  | O => ret tt
  | S n' => bump_credits session ;; bump_credits_n n' session
  end.

(** The bursts handed to the transport, one list of items per call of
    [tx_burst]. *)
Fixpoint bursts (tr : list event) : list (list tx_burst_item_t) :=
  match tr with
  | [] => []
  | EvTxBurst items :: tr' => items :: bursts tr'
  | _ :: tr' => bursts tr'
  end.

(** Without fault injection compiled in, [enqueue_pkt_tx_burst_st] asserts
    that the item it reuses has [drop] clear; the datapath keeps every item of
    [tx_burst_arr] that way. *)
Definition tx_clean (st : State) : Prop :=
  kFaultInjection = false →
  Forall (λ it, drop it = false) (tx_burst_arr (rpc st)).

(** The packet an item carries, apart from its drop flag. *)
Definition same_packet (op : tx_op) (it : tx_burst_item_t) : Prop :=
  match op with
  | OpEnqueue a =>
      routing_info it = arg_routing_info a ∧ msg_buffer it = arg_tx_msgbuf a
      ∧ offset it = arg_offset a ∧ data_bytes it = arg_data_bytes a
  | OpNow ri mb =>
      routing_info it = ri ∧ msg_buffer it = mb
      ∧ offset it = 0 ∧ data_bytes it = 0
  end.

(** The deferred packets among the calls. *)
Definition enqueued (ops : list tx_op) : list enqueue_args :=
  omap (λ op, match op with OpEnqueue a => Some a | OpNow _ _ => None end) ops.

(** Arguments that meet the assertions of the TX call. *)
Definition valid_op (mm : Mem) (op : tx_op) : Prop :=
  match op with
  | OpEnqueue a => valid_args mm a
  | OpNow ri mb =>
      ri ≠ nullptr ∧ mb ≠ nullptr
      ∧ ∃ m, msgbufs mm !! mb = Some m
             ∧ is_expl_cr mm m || is_req_for_resp mm m = true
  end.

End MoreCode.

(** ** Arithmetic used in the statements *)

(** The least [n] with [a <= n * b], for [b > 0]. *)
Definition ceil_div (a b : Z) : Z := (a + b - 1) / b.

(** ** A concrete configuration, used to run the code on examples *)

Module Example.

#[export] Instance SmallTransport : Transport :=
  {| kMaxDataPerPkt := 1024; kPostlist := 2 |}.

(** A bump allocator over a fixed range: the state is the next free address
    and the bytes left.  A request above [kMaxClassSize] throws, a request
    above the bytes left yields a null buffer. *)
#[export] Instance BumpAllocator : HugeAllocator :=
  {| HugeAlloc := Z * Z;
     kMaxClassSize := 8388608;
     HugeAlloc_alloc := λ ha size,
       if 8388608 <? size then (None, ha)
       else if snd ha <? size then (Some {| Buffer_buf := nullptr |}, ha)
       else (Some {| Buffer_buf := fst ha |}, (fst ha + size, snd ha - size));
     HugeAlloc_free_buf := λ ha _, ha |}.

Definition MsgBuffer_invalid : MsgBuffer :=
  {| buffer := {| Buffer_buf := nullptr |}; buf := nullptr; max_data_size := 0;
     data_size := 0; max_num_pkts := 0; num_pkts := 0; pkts_queued := 0 |}.

#[export] Instance TestCommon : Common :=
  {| sizeof_pkthdr_t := 16; kPktHdrMagic := 11; kMsgSizeBits := 24;
     kPktNumBits := 13; kSessionCredits := 8; kFaultInjection := true;
     MsgBuffer_default := MsgBuffer_invalid |}.

(** A [resize] that stores the new data size and packet count. *)
#[export] Instance TestMsgBufferOps : MsgBufferOps :=
  {| MsgBuffer_resize := λ new_data_size new_num_pkts m,
       {| buffer := buffer m; buf := buf m; max_data_size := max_data_size m;
          data_size := new_data_size; max_num_pkts := max_num_pkts m;
          num_pkts := new_num_pkts; pkts_queued := pkts_queued m |} |}.

Definition item0 : tx_burst_item_t :=
  {| routing_info := 0; msg_buffer := 0; offset := 0; data_bytes := 0;
     drop := false |}.

Definition rpc0 (ha : Z * Z) : Rpc :=
  {| multi_threaded := true; creator_tiny_tid := 1;
     tx_burst_arr := [item0; item0]; tx_batch_i := 0;
     huge_alloc := ha;
     faults := {| resolve_server_rinfo := false; drop_tx_local := false;
                  drop_tx_local_countdown := 0 |} |}.

Definition mem0 : Mem :=
  {| msgbufs := ∅; sslots := ∅; sessions := ∅; pkthdrs := ∅ |}.

(** A fresh endpoint on its creator thread, with 1 MiB of hugepage memory at
    address 0x100000. *)
Definition st0 : State :=
  {| rpc := rpc0 (1048576, 1048576); mem := mem0; tiny_tid := 1; held := [];
     trace := [] |}.

(** The same endpoint with the hugepage memory used up. *)
Definition st_exhausted : State :=
  {| rpc := rpc0 (2097152, 0); mem := mem0; tiny_tid := 1; held := [];
     trace := [] |}.

(** An endpoint in the middle of its work.  At 0x2000 a dynamic one-packet
    request MsgBuffer, at 0x2100 a fake MsgBuffer holding a credit return.
    Slot 0x4000 is a client slot of session 0x5000 whose continuation has
    run: its request is buried and its response MsgBuffer is dynamic.  Slot
    0x4100 is a server slot: fake request MsgBuffer, dynamic response at
    0x2000. *)
Definition hdr (t : PktType) : pkthdr_t :=
  {| magic := 11; req_type := 7; msg_size := 64; dest_session_num := 0;
     pkt_type := t; pkt_num := 0; req_num := 0 |}.

Definition msgbuf_at (owner base : Z) : MsgBuffer :=
  {| buffer := {| Buffer_buf := owner |}; buf := base + 16; max_data_size := 64;
     data_size := 64; max_num_pkts := 1; num_pkts := 1; pkts_queued := 0 |}.

Definition sl_client : SSlot :=
  {| index := 3; session := 0x5000; tx_msgbuf := nullptr;
     rx_msgbuf := msgbuf_at 0x110000 0x110000 |}.

Definition sl_server : SSlot :=
  {| index := 0; session := 0x5100; tx_msgbuf := 0x2000;
     rx_msgbuf := msgbuf_at nullptr 0x300000 |}.

Definition se_client : Session :=
  {| role := kClient; credits := 7; sslot_free_vec := [0; 1] |}.

Definition mem1 : Mem :=
  {| msgbufs := <[0x2000 := msgbuf_at 0x100000 0x100000]>
                  (<[0x2100 := msgbuf_at nullptr 0x200000]> ∅);
     sslots := <[0x4000 := sl_client]> (<[0x4100 := sl_server]> ∅);
     sessions := <[0x5000 := se_client]> ∅;
     pkthdrs := <[0x100000 := hdr kPktTypeReq]>
                  (<[0x110000 := hdr kPktTypeResp]>
                     (<[0x200000 := hdr kPktTypeExplCR]>
                        (<[0x300000 := hdr kPktTypeReq]> ∅))) |}.

Definition st1 : State :=
  {| rpc := rpc0 (1048576, 1048576); mem := mem1; tiny_tid := 1; held := [];
     trace := [] |}.

(** [st1] with the fault injector armed to drop after [n] packets. *)
Definition st_armed (n : Z) : State :=
  State_set_rpc
    (Rpc_set_faults
       {| resolve_server_rinfo := false; drop_tx_local := true;
          drop_tx_local_countdown := n |} (rpc st1)) st1.

(** [st1] as a background thread sees it. *)
Definition st_background : State :=
  {| rpc := rpc st1; mem := mem st1; tiny_tid := 2; held := held st1;
     trace := trace st1 |}.

(** A data packet of the request MsgBuffer and the credit return. *)
Definition data_pkt : enqueue_args :=
  {| arg_routing_info := 0x3000; arg_tx_msgbuf := 0x2000; arg_offset := 0;
     arg_data_bytes := 64 |}.

Definition cr_item (d : bool) : tx_burst_item_t :=
  {| routing_info := 0x3000; msg_buffer := 0x2100; offset := 0;
     data_bytes := 0; drop := d |}.

End Example.

(** * Theorems *)

Section Proofs.
Context {TTr : Transport} {HA : HugeAllocator} {CM : Common}.

Lemma size_t_wrap_small x : 0 ≤ x ≤ size_t_max → size_t_wrap x = x.
Proof. unfold size_t_wrap, size_t_max. intros H. apply Z.mod_small. lia. Qed.

Lemma size_t_wrap_range x : 0 ≤ size_t_wrap x ≤ size_t_max.
Proof.
  unfold size_t_wrap, size_t_max.
  pose proof (Z.mod_pos_bound x (2 ^ 64) ltac:(lia)). lia.
Qed.

Lemma ceil_div_le a b n : 0 < b → ceil_div a b ≤ n ↔ a ≤ n * b.
Proof.
  intros Hb. unfold ceil_div. split; intros H.
  - pose proof (Z.mul_div_le (a + b - 1) b Hb).
    pose proof (Z.mod_pos_bound (a + b - 1) b Hb).
    pose proof (Z.div_mod (a + b - 1) b ltac:(lia)). nia.
  - assert ((a + b - 1) / b < n + 1); [|lia].
    apply Z.div_lt_upper_bound; nia.
Qed.

Lemma ceil_div_pos a b : 0 < b → 0 < a → 1 ≤ ceil_div a b.
Proof.
  intros Hb Ha. destruct (Z_lt_le_dec (ceil_div a b) 1) as [H|H]; [|done].
  assert (ceil_div a b ≤ 0) as H0 by lia.
  apply ceil_div_le in H0; lia.
Qed.

Lemma ceil_div_small a b : 0 < a ≤ b → ceil_div a b = 1.
Proof.
  intros H. pose proof (ceil_div_pos a b ltac:(lia) ltac:(lia)).
  assert (ceil_div a b ≤ 1); [apply ceil_div_le; lia | lia].
Qed.

Lemma alloc_request_size_no_overflow p :
  0 < kMaxDataPerPkt → 0 ≤ sizeof_pkthdr_t → 0 ≤ p →
  p + kMaxDataPerPkt - 1 ≤ size_t_max →
  p + Z.max 1 (ceil_div p kMaxDataPerPkt) * sizeof_pkthdr_t ≤ size_t_max →
  alloc_request_size p = p + Z.max 1 (ceil_div p kMaxDataPerPkt) * sizeof_pkthdr_t
  ∧ (if p <=? kMaxDataPerPkt then 1
     else size_t_wrap (p + size_t_wrap (kMaxDataPerPkt - 1)) / kMaxDataPerPkt)
    = Z.max 1 (ceil_div p kMaxDataPerPkt).
Proof.
  intros Hk Hh Hp Ho1 Ho2. unfold alloc_request_size.
  assert ((if p <=? kMaxDataPerPkt then 1
           else size_t_wrap (p + size_t_wrap (kMaxDataPerPkt - 1)) / kMaxDataPerPkt)
          = Z.max 1 (ceil_div p kMaxDataPerPkt)) as ->.
  { destruct (Z.leb_spec p kMaxDataPerPkt) as [Hle|Hgt].
    - destruct (Z.eq_dec p 0) as [->|Hne].
      + unfold ceil_div. rewrite Z.div_small by lia. lia.
      + rewrite ceil_div_small by lia. lia.
    - rewrite (size_t_wrap_small (kMaxDataPerPkt - 1)) by lia.
      rewrite size_t_wrap_small by lia.
      replace (p + (kMaxDataPerPkt - 1)) with (p + kMaxDataPerPkt - 1) by lia.
      fold (ceil_div p kMaxDataPerPkt).
      pose proof (ceil_div_pos p kMaxDataPerPkt Hk ltac:(lia)). lia. }
  split; [|done].
  assert (0 ≤ Z.max 1 (ceil_div p kMaxDataPerPkt) * sizeof_pkthdr_t) by nia.
  rewrite (size_t_wrap_small (_ * _)) by lia.
  apply size_t_wrap_small. lia.
Qed.

(** Unfolding of the monad's operations. *)
Ltac munfold :=
  unfold mbind, M_bind, bind, mret, M_ret, ret, gets, modify, modify_rpc,
    modify_mem, throw, emit in *.

(** [lock_cond m; ...; unlock_cond m] leaves the set of held mutexes as it
    was. *)
Lemma lock_cond_run m st :
  lock_cond m st =
  Ok tt (if multi_threaded (rpc st) then State_set_held (m :: held st) st else st).
Proof. unfold lock_cond. munfold. by destruct (multi_threaded (rpc st)). Qed.

Lemma unlock_cond_run m st :
  unlock_cond m st =
  Ok tt (if multi_threaded (rpc st)
         then State_set_held (release m (held st)) st else st).
Proof. unfold unlock_cond. munfold. by destruct (multi_threaded (rpc st)). Qed.

Lemma alloc_msg_buffer_run st p :
  alloc_msg_buffer p st =
  match HugeAlloc_alloc (huge_alloc (rpc st)) (alloc_request_size p) with
  | (None, _) => Raise RuntimeError
  | (Some b, ha) =>
      let st1 :=
        State_set_trace (trace st ++ [EvAlloc (alloc_request_size p)])
          (State_set_rpc (Rpc_set_huge_alloc ha (rpc st)) st) in
      if Buffer_buf b =? nullptr
      then Ok (MsgBuffer_set_buf nullptr MsgBuffer_default) st1
      else MsgBuffer_ctor b p
             (if p <=? kMaxDataPerPkt then 1
              else size_t_wrap (p + size_t_wrap (kMaxDataPerPkt - 1)) / kMaxDataPerPkt)
             st1
  end.
Proof.
  unfold alloc_msg_buffer. fold (alloc_request_size p).
  unfold mbind, M_bind, bind. rewrite lock_cond_run.
  unfold huge_alloc_alloc.
  replace (huge_alloc (rpc (if multi_threaded (rpc st)
             then State_set_held (huge_alloc_lock :: held st) st else st)))
    with (huge_alloc (rpc st)) by (by destruct (multi_threaded (rpc st))).
  destruct (HugeAlloc_alloc _ _) as [[b|] ha]; [|done].
  rewrite unlock_cond_run.
  destruct (multi_threaded (rpc st)) eqn:Hmt; simpl; rewrite Hmt;
    unfold State_set_trace, State_set_rpc, State_set_held; simpl;
    rewrite ?decide_True by done; destruct st;
    destruct (Buffer_buf b =? nullptr); reflexivity.
Qed.

(** C1 (as amended).  Without [size_t] overflow, [alloc_msg_buffer p] asks the
    hugepage allocator exactly once, for
    [p + max 1 (ceil (p / kMaxDataPerPkt)) * sizeof (pkthdr_t)] bytes (a
    message has at least one packet, also when [p = 0]); when the allocator
    throws so does the call, and when it returns a non-null buffer the
    MsgBuffer owns that buffer, its payload pointer lies one header slot
    past the start of the allocation, and header[0] carries the magic. *)
Theorem alloc_msg_buffer_reserves (st : State) (p : Z) :
  0 < kMaxDataPerPkt → 0 ≤ sizeof_pkthdr_t → 0 ≤ p →
  p + kMaxDataPerPkt - 1 ≤ size_t_max →
  p + Z.max 1 (ceil_div p kMaxDataPerPkt) * sizeof_pkthdr_t ≤ size_t_max →
  let size := p + Z.max 1 (ceil_div p kMaxDataPerPkt) * sizeof_pkthdr_t in
  match HugeAlloc_alloc (huge_alloc (rpc st)) size with
  | (None, _) => alloc_msg_buffer p st = Raise RuntimeError
  | (Some b, ha) =>
      ∃ m st',
        alloc_msg_buffer p st = Ok m st'
        ∧ trace st' = trace st ++ [EvAlloc size]
        ∧ huge_alloc (rpc st') = ha
        ∧ held st' = held st
        ∧ (Buffer_buf b ≠ nullptr →
           buffer m = b
           ∧ buf m = Buffer_buf b + sizeof_pkthdr_t
           ∧ max_data_size m = p
           ∧ max_num_pkts m = Z.max 1 (ceil_div p kMaxDataPerPkt)
           ∧ pkts_queued m = 0
           ∧ check_magic (mem st') m = true)
  end.
Proof.
  intros Hk Hh Hp Ho1 Ho2 size.
  destruct (alloc_request_size_no_overflow p Hk Hh Hp Ho1 Ho2) as [Hsz Hn].
  rewrite alloc_msg_buffer_run, Hsz, Hn. fold size.
  destruct (HugeAlloc_alloc _ _) as [[b|] ha]; [|done].
  destruct (Z.eqb_spec (Buffer_buf b) nullptr) as [Hnull|Hnn]; simpl.
  - eexists _, _. split; [reflexivity|]. simpl. by repeat split.
  - unfold MsgBuffer_ctor. munfold. simpl.
    eexists _, _. split; [reflexivity|]. simpl.
    repeat split; try done.
    unfold check_magic, get_pkthdr_0; simpl.
    replace (Buffer_buf b + sizeof_pkthdr_t - sizeof_pkthdr_t)
      with (Buffer_buf b) by lia.
    rewrite lookup_insert_eq. simpl. apply Z.eqb_refl.
Qed.

(** C5.  When the allocator answers the request of [alloc_msg_buffer] with a
    null buffer (memory is exhausted), the call returns normally, with a
    MsgBuffer whose [buf] is null; nothing is thrown and the memory is left
    as it was. *)
Theorem alloc_msg_buffer_out_of_memory (st : State) (p : Z) (b : Buffer) (ha : HugeAlloc) :
  HugeAlloc_alloc (huge_alloc (rpc st)) (alloc_request_size p) = (Some b, ha) →
  Buffer_buf b = nullptr →
  ∃ m st', alloc_msg_buffer p st = Ok m st'
           ∧ buf m = nullptr
           ∧ mem st' = mem st.
Proof.
  intros Ha Hb. rewrite alloc_msg_buffer_run, Ha, Hb. simpl.
  eexists _, _. by repeat split.
Qed.

(** ** Steps of the monad *)

Lemma cassert_true b st : b = true → cassert b st = Ok tt st.
Proof. by intros ->. Qed.

Lemma cassert_false b st : b = false → cassert b st = Raise AssertionFailure.
Proof. by intros ->. Qed.

Lemma load_Some {A} (store : Mem → gmap Z A) p a st :
  store (mem st) !! p = Some a → load store p st = Ok a st.
Proof. unfold load. by intros ->. Qed.

Lemma update_sslot_run p f sl st :
  sslots (mem st) !! p = Some sl →
  update_sslot p f st =
  Ok tt (State_set_mem (Mem_set_sslots (<[p := f sl]> (sslots (mem st))) (mem st)) st).
Proof. intros H. unfold update_sslot. munfold. by rewrite (load_Some _ _ _ _ H). Qed.

Lemma update_session_run p f se st :
  sessions (mem st) !! p = Some se →
  update_session p f st =
  Ok tt (State_set_mem (Mem_set_sessions (<[p := f se]> (sessions (mem st))) (mem st)) st).
Proof. intros H. unfold update_session. munfold. by rewrite (load_Some _ _ _ _ H). Qed.

Lemma update_msgbuf_run p f m st :
  msgbufs (mem st) !! p = Some m →
  update_msgbuf p f st =
  Ok tt (State_set_mem (Mem_set_msgbufs (<[p := f m]> (msgbufs (mem st))) (mem st)) st).
Proof. intros H. unfold update_msgbuf. munfold. by rewrite (load_Some _ _ _ _ H). Qed.

Lemma neqb_nullptr p : p ≠ nullptr → negb (p =? nullptr) = true.
Proof. intros H. by destruct (Z.eqb_spec p nullptr). Qed.

(** ** Burial *)

Lemma free_msg_buffer_run st m :
  is_dynamic m = true → check_magic (mem st) m = true →
  free_msg_buffer m st =
  Ok tt (State_set_trace (trace st ++ [EvFreeBuf (buffer m)])
           (State_set_rpc
              (Rpc_set_huge_alloc (HugeAlloc_free_buf (huge_alloc (rpc st)) (buffer m))
                 (rpc st)) st)).
Proof.
  intros Hd Hm. unfold free_msg_buffer, huge_alloc_free_buf.
  unfold mbind, M_bind, bind, gets. rewrite Hd, Hm. simpl.
  rewrite lock_cond_run. munfold. rewrite unlock_cond_run.
  destruct (multi_threaded (rpc st)) eqn:Hmt; simpl; rewrite Hmt;
    unfold State_set_trace, State_set_rpc, State_set_held; simpl;
    rewrite ?decide_True by done; by destruct st.
Qed.

Lemma bury_sslot_rx_msgbuf_spec st sslot sl :
  sslot ≠ nullptr →
  sslots (mem st) !! sslot = Some sl →
  (is_dynamic (rx_msgbuf sl) = true →
   buf (rx_msgbuf sl) ≠ nullptr ∧ check_magic (mem st) (rx_msgbuf sl) = true) →
  bury_sslot_rx_msgbuf sslot st =
  Ok tt
    {| rpc := Rpc_after_bury (rx_msgbuf sl) (rpc st);
       mem := Mem_set_sslots
                (<[sslot := SSlot_set_rx_msgbuf (buried_rx (rx_msgbuf sl)) sl]>
                   (sslots (mem st))) (mem st);
       tiny_tid := tiny_tid st;
       held := held st;
       trace := trace st ++ free_events (rx_msgbuf sl) |}.
Proof.
  intros Hnn Hsl Hpre. unfold bury_sslot_rx_msgbuf.
  unfold mbind, M_bind, bind.
  rewrite (cassert_true _ _ (neqb_nullptr _ Hnn)), (load_Some _ _ _ _ Hsl).
  unfold Rpc_after_bury, buried_rx, free_events.
  destruct (is_dynamic (rx_msgbuf sl)) eqn:Hd.
  - destruct (Hpre eq_refl) as [Hb Hm]. unfold gets.
    rewrite cassert_true by (by rewrite (neqb_nullptr _ Hb), Hm).
    rewrite (free_msg_buffer_run _ _ Hd Hm).
    erewrite update_sslot_run by exact Hsl.
    erewrite update_sslot_run by (simpl; apply lookup_insert_eq).
    simpl. by rewrite insert_insert_eq.
  - unfold ret. erewrite update_sslot_run by exact Hsl.
    simpl. rewrite app_nil_r. by destruct st.
Qed.

Lemma bury_sslot_tx_msgbuf_spec st sslot sl :
  sslot ≠ nullptr →
  sslots (mem st) !! sslot = Some sl →
  (tx_msgbuf sl ≠ nullptr →
   ∃ m, msgbufs (mem st) !! tx_msgbuf sl = Some m
        ∧ (is_dynamic m = true →
           buf m ≠ nullptr ∧ check_magic (mem st) m = true)) →
  bury_sslot_tx_msgbuf sslot st =
  Ok tt
    {| rpc := from_option (λ m, Rpc_after_bury m (rpc st)) (rpc st)
                (tx_msgbuf_of (mem st) sl);
       mem := Mem_set_sslots
                (<[sslot := SSlot_set_tx_msgbuf nullptr sl]> (sslots (mem st)))
                (mem st);
       tiny_tid := tiny_tid st;
       held := held st;
       trace := trace st ++ from_option free_events [] (tx_msgbuf_of (mem st) sl) |}.
Proof.
  intros Hnn Hsl Hpre. unfold bury_sslot_tx_msgbuf, tx_msgbuf_of.
  unfold mbind, M_bind, bind.
  rewrite (cassert_true _ _ (neqb_nullptr _ Hnn)), (load_Some _ _ _ _ Hsl).
  destruct (Z.eqb_spec (tx_msgbuf sl) nullptr) as [Hnull|Htx]; simpl.
  - unfold ret. erewrite update_sslot_run by exact Hsl.
    simpl. rewrite app_nil_r. by destruct st.
  - destruct (Hpre Htx) as (m & Hm & Hdyn).
    rewrite (load_Some _ _ _ _ Hm), Hm. simpl.
    unfold Rpc_after_bury, free_events.
    destruct (is_dynamic m) eqn:Hd.
    + destruct (Hdyn eq_refl) as [Hb Hmagic]. unfold gets.
      rewrite cassert_true by (by rewrite (neqb_nullptr _ Hb), Hmagic).
      rewrite (free_msg_buffer_run _ _ Hd Hmagic).
      erewrite update_sslot_run by exact Hsl. reflexivity.
    + unfold ret. erewrite update_sslot_run by exact Hsl.
      simpl. rewrite app_nil_r. by destruct st.
Qed.

Lemma bury_sslot_rx_msgbuf_nofree_spec st sslot sl :
  sslot ≠ nullptr →
  sslots (mem st) !! sslot = Some sl →
  bury_sslot_rx_msgbuf_nofree sslot st =
  if is_dynamic (rx_msgbuf sl) then Raise AssertionFailure
  else Ok tt
         (State_set_mem
            (Mem_set_sslots
               (<[sslot := SSlot_set_rx_msgbuf (MsgBuffer_set_buf nullptr (rx_msgbuf sl)) sl]>
                  (sslots (mem st))) (mem st)) st).
Proof.
  intros Hnn Hsl. unfold bury_sslot_rx_msgbuf_nofree.
  unfold mbind, M_bind, bind.
  rewrite (cassert_true _ _ (neqb_nullptr _ Hnn)), (load_Some _ _ _ _ Hsl).
  destruct (is_dynamic (rx_msgbuf sl)); simpl; [done|].
  by erewrite update_sslot_run by exact Hsl.
Qed.

(** C4.  On a slot that meets the assertions of the bury functions:
    [bury_sslot_tx_msgbuf] calls the allocator's [free_buf] exactly when the
    slot has a TX MsgBuffer and it is dynamic, and then exactly once, with the
    buffer it owns; [bury_sslot_rx_msgbuf] does so exactly when the RX
    MsgBuffer is dynamic; [bury_sslot_rx_msgbuf_nofree] stops at its assertion
    on a dynamic RX MsgBuffer and on a fake one makes no allocator call.  In
    each case the slot's [tx_msgbuf], respectively [rx_msgbuf.buf], is null
    afterwards. *)
Theorem bury_frees_iff_dynamic (st : State) (sslot : Z) (sl : SSlot) :
  sslot ≠ nullptr →
  sslots (mem st) !! sslot = Some sl →
  (* bury_sslot_tx_msgbuf *)
  ((tx_msgbuf sl ≠ nullptr →
    ∃ m, msgbufs (mem st) !! tx_msgbuf sl = Some m
         ∧ (is_dynamic m = true →
            buf m ≠ nullptr ∧ check_magic (mem st) m = true)) →
   ∃ st' sl',
     bury_sslot_tx_msgbuf sslot st = Ok tt st'
     ∧ trace st' =
       trace st ++ match tx_msgbuf_of (mem st) sl with
                   | Some m => if is_dynamic m then [EvFreeBuf (buffer m)] else []
                   | None => []
                   end
     ∧ sslots (mem st') !! sslot = Some sl'
     ∧ tx_msgbuf sl' = nullptr)
  (* bury_sslot_rx_msgbuf *)
  ∧ ((is_dynamic (rx_msgbuf sl) = true →
      buf (rx_msgbuf sl) ≠ nullptr ∧ check_magic (mem st) (rx_msgbuf sl) = true) →
     ∃ st' sl',
       bury_sslot_rx_msgbuf sslot st = Ok tt st'
       ∧ trace st' =
         trace st ++ (if is_dynamic (rx_msgbuf sl)
                      then [EvFreeBuf (buffer (rx_msgbuf sl))] else [])
       ∧ sslots (mem st') !! sslot = Some sl'
       ∧ buf (rx_msgbuf sl') = nullptr)
  (* bury_sslot_rx_msgbuf_nofree *)
  ∧ (if is_dynamic (rx_msgbuf sl)
     then bury_sslot_rx_msgbuf_nofree sslot st = Raise AssertionFailure
     else ∃ st' sl',
       bury_sslot_rx_msgbuf_nofree sslot st = Ok tt st'
       ∧ trace st' = trace st
       ∧ sslots (mem st') !! sslot = Some sl'
       ∧ buf (rx_msgbuf sl') = nullptr).
Proof.
  intros Hnn Hsl. split; [|split].
  - intros Hpre. rewrite (bury_sslot_tx_msgbuf_spec _ _ _ Hnn Hsl Hpre).
    eexists _, _. split; [reflexivity|]. simpl.
    split; [by destruct (tx_msgbuf_of (mem st) sl)|].
    split; [apply lookup_insert_eq | done].
  - intros Hpre. rewrite (bury_sslot_rx_msgbuf_spec _ _ _ Hnn Hsl Hpre).
    eexists _, _. split; [reflexivity|]. simpl.
    split; [done|]. split; [apply lookup_insert_eq | done].
  - rewrite (bury_sslot_rx_msgbuf_nofree_spec _ _ _ Hnn Hsl).
    destruct (is_dynamic (rx_msgbuf sl)); [done|].
    eexists _, _. split; [reflexivity|]. simpl.
    split; [done|]. split; [apply lookup_insert_eq | done].
Qed.

(** [bury_sslot_tx_msgbuf_nofree] makes no allocator call, whatever the TX
    MsgBuffer is. *)
Lemma bury_sslot_tx_msgbuf_nofree_spec st sslot sl :
  sslot ≠ nullptr →
  sslots (mem st) !! sslot = Some sl →
  bury_sslot_tx_msgbuf_nofree sslot st =
  Ok tt
    (State_set_mem
       (Mem_set_sslots (<[sslot := SSlot_set_tx_msgbuf nullptr sl]> (sslots (mem st)))
          (mem st)) st).
Proof.
  intros Hnn Hsl. unfold bury_sslot_tx_msgbuf_nofree.
  unfold mbind, M_bind, bind.
  rewrite (cassert_true _ _ (neqb_nullptr _ Hnn)).
  by erewrite update_sslot_run by exact Hsl.
Qed.

(** ** release_respone *)

(** C7.  On a client slot whose [tx_msgbuf] is already null and whose response
    MsgBuffer is valid, [release_respone] returns normally; it frees the RX
    MsgBuffer exactly when it is dynamic, leaves the slot's [rx_msgbuf.buf]
    null, and appends the slot's index to the free-slot vector of its
    session.  Every mutex it took is released. *)
Theorem release_respone_buries_and_frees_slot
    (st : State) (resp_handle : Z) (sl : SSlot) (se : Session) :
  resp_handle ≠ nullptr →
  sslots (mem st) !! resp_handle = Some sl →
  tx_msgbuf sl = nullptr →
  buf (rx_msgbuf sl) ≠ nullptr →
  check_magic (mem st) (rx_msgbuf sl) = true →
  session sl ≠ nullptr →
  sessions (mem st) !! session sl = Some se →
  is_client se = true →
  ∃ st' sl' se',
    release_respone resp_handle st = Ok tt st'
    ∧ trace st' =
      trace st ++ (if is_dynamic (rx_msgbuf sl)
                   then [EvFreeBuf (buffer (rx_msgbuf sl))] else [])
    ∧ sslots (mem st') !! resp_handle = Some sl'
    ∧ buf (rx_msgbuf sl') = nullptr
    ∧ index sl' = index sl
    ∧ tx_msgbuf sl' = nullptr
    ∧ sessions (mem st') !! session sl = Some se'
    ∧ sslot_free_vec se' = sslot_free_vec se ++ [index sl]
    ∧ credits se' = credits se
    ∧ held st' = held st.
Proof.
  intros Hnn Hsl Htx Hbuf Hmagic Hsn Hse Hcl. unfold release_respone.
  unfold mbind, M_bind, bind.
  rewrite (cassert_true _ _ (neqb_nullptr _ Hnn)), (load_Some _ _ _ _ Hsl).
  rewrite cassert_true by (by apply Z.eqb_eq).
  unfold gets. rewrite cassert_true by (by rewrite (neqb_nullptr _ Hbuf), Hmagic).
  rewrite (bury_sslot_rx_msgbuf_spec _ _ _ Hnn Hsl) by done.
  erewrite load_Some by (simpl; apply lookup_insert_eq). simpl.
  destruct (Z.eqb_spec (session sl) nullptr) as [|_]; [done|].
  erewrite load_Some by (simpl; exact Hse).
  rewrite (cassert_true _ _ Hcl), lock_cond_run.
  erewrite update_session_run
    by (destruct (multi_threaded _); simpl; exact Hse).
  rewrite unlock_cond_run.
  eexists _, _, _. split; [reflexivity|].
  assert (multi_threaded (Rpc_after_bury (rx_msgbuf sl) (rpc st))
          = multi_threaded (rpc st)) as Hmt.
  { unfold Rpc_after_bury. by destruct (is_dynamic _). }
  simpl. rewrite Hmt.
  destruct (multi_threaded (rpc st)); simpl; rewrite ?Hmt; simpl;
    rewrite ?decide_True by done;
    (split; [done|]); (split; [apply lookup_insert_eq|]);
    (do 3 (split; [done|])); (split; [apply lookup_insert_eq|]); done.
Qed.

(** ** bump_credits *)

(** C2.  On a client session with [credits < kSessionCredits],
    [bump_credits] adds exactly one credit, and the result is at most
    [kSessionCredits]; on a session whose credits are not below
    [kSessionCredits] the assertion stops the call, so no run of
    [bump_credits] leaves more than [kSessionCredits] credits. *)
Theorem bump_credits_bounded (st : State) (session : Z) (se : Session) :
  sessions (mem st) !! session = Some se →
  is_client se = true →
  0 ≤ credits se →
  kSessionCredits ≤ size_t_max →
  (credits se < kSessionCredits →
   ∃ st' se',
     bump_credits session st = Ok tt st'
     ∧ sessions (mem st') !! session = Some se'
     ∧ credits se' = credits se + 1
     ∧ credits se' ≤ kSessionCredits
     ∧ sslot_free_vec se' = sslot_free_vec se
     ∧ trace st' = trace st)
  ∧ (kSessionCredits ≤ credits se →
     bump_credits session st = Raise AssertionFailure).
Proof.
  intros Hse Hcl H0 HC. unfold bump_credits.
  unfold mbind, M_bind, bind.
  rewrite (load_Some _ _ _ _ Hse), (cassert_true _ _ Hcl). split; intros Hc.
  - rewrite cassert_true by (by apply Z.ltb_lt).
    erewrite update_session_run by exact Hse.
    eexists _, _. split; [reflexivity|]. simpl.
    split; [apply lookup_insert_eq|]. simpl.
    rewrite size_t_wrap_small by lia. repeat split; lia.
  - by rewrite cassert_false by (by apply Z.ltb_ge).
Qed.

(** ** TX *)

Lemma update_item_run i f it st :
  tx_burst_arr (rpc st) !! Z.to_nat i = Some it →
  update_item i f st =
  Ok tt (State_set_rpc
           (Rpc_set_tx_burst_arr (<[Z.to_nat i := f it]> (tx_burst_arr (rpc st))) (rpc st))
           st).
Proof. intros H. unfold update_item, load_item. munfold. by rewrite H. Qed.

Lemma in_creator_run st :
  tiny_tid st = creator_tiny_tid (rpc st) → in_creator st = Ok true st.
Proof. intros H. unfold in_creator, gets. by rewrite H, Z.eqb_refl. Qed.

(** Rewrites one [update_item] on the slot [tx_batch_i]. *)
Ltac step_item Hlen :=
  erewrite update_item_run
    by (simpl; first [eassumption
                     | apply list_lookup_insert_eq; rewrite ?length_insert; exact Hlen]);
  simpl; rewrite ?list_insert_insert_eq.

Lemma enqueue_pkt_tx_burst_st_run st ri mb off db it m :
  tiny_tid st = creator_tiny_tid (rpc st) →
  ri ≠ nullptr → mb ≠ nullptr →
  0 ≤ tx_batch_i (rpc st) < kPostlist →
  kPostlist ≤ size_t_max →
  tx_burst_arr (rpc st) !! Z.to_nat (tx_batch_i (rpc st)) = Some it →
  msgbufs (mem st) !! mb = Some m →
  0 ≤ drop_tx_local_countdown (faults (rpc st)) →
  (kFaultInjection = false → drop it = false) →
  enqueue_pkt_tx_burst_st ri mb off db st =
  Ok tt
    (let i := tx_batch_i (rpc st) in
     let arr :=
       <[Z.to_nat i := {| routing_info := ri; msg_buffer := mb; offset := off;
                          data_bytes := db;
                          drop := enqueue_drops (faults (rpc st)) |}]>
         (tx_burst_arr (rpc st)) in
     {| rpc := {| multi_threaded := multi_threaded (rpc st);
                  creator_tiny_tid := creator_tiny_tid (rpc st);
                  tx_burst_arr := arr;
                  tx_batch_i := if i + 1 =? kPostlist then 0 else i + 1;
                  huge_alloc := huge_alloc (rpc st);
                  faults := faults_after_enqueue (faults (rpc st)) |};
        mem := Mem_set_msgbufs
                 (<[mb := MsgBuffer_set_pkts_queued (size_t_wrap (pkts_queued m + 1)) m]>
                    (msgbufs (mem st))) (mem st);
        tiny_tid := tiny_tid st;
        held := held st;
        trace := trace st ++ (if i + 1 =? kPostlist
                              then [EvTxBurst (take (Z.to_nat kPostlist) arr)]
                              else []) |}).
Proof.
  intros Hcr Hri Hmb Hi HP Hit Hm Hc Hnf.
  pose proof (lookup_lt_Some _ _ _ Hit) as Hlen.
  unfold enqueue_pkt_tx_burst_st. unfold mbind, M_bind, bind.
  rewrite (in_creator_run _ Hcr). simpl.
  rewrite cassert_true by (by rewrite !neqb_nullptr).
  rewrite cassert_true by (apply Z.ltb_lt; lia).
  do 4 step_item Hlen.
  assert (size_t_wrap (tx_batch_i (rpc st) + 1) = tx_batch_i (rpc st) + 1) as Hw
    by (apply size_t_wrap_small; lia).
  unfold enqueue_drops, faults_after_enqueue.
  destruct kFaultInjection eqn:HFI; simpl.
  - destruct (drop_tx_local (faults (rpc st))) eqn:Hd; simpl.
    + destruct (Z.eqb_spec (drop_tx_local_countdown (faults (rpc st))) 0) as [H0|H0].
      * step_item Hlen. unfold modify_rpc, modify. simpl.
        erewrite update_msgbuf_run by (simpl; exact Hm). simpl.
        rewrite Hw.
        destruct (Z.eqb_spec (tx_batch_i (rpc st) + 1) kPostlist);
          [|unfold ret]; rewrite ?app_nil_r; reflexivity.
      * rewrite cassert_true by (apply Z.ltb_lt; lia).
        step_item Hlen.
        erewrite update_msgbuf_run by (simpl; exact Hm). simpl.
        rewrite Hw.
        destruct (Z.eqb_spec (tx_batch_i (rpc st) + 1) kPostlist);
          [|unfold ret]; rewrite ?app_nil_r; reflexivity.
    + step_item Hlen.
      erewrite update_msgbuf_run by (simpl; exact Hm). simpl.
      rewrite Hw.
      destruct (Z.eqb_spec (tx_batch_i (rpc st) + 1) kPostlist);
        [|unfold ret]; rewrite ?app_nil_r; reflexivity.
  - specialize (Hnf eq_refl). destruct it as [? ? ? ? dr]. simpl in Hnf. subst dr.
    unfold load_item. simpl. rewrite list_lookup_insert_eq by exact Hlen. simpl.
    erewrite update_msgbuf_run by (simpl; exact Hm). simpl.
    rewrite Hw.
    destruct (Z.eqb_spec (tx_batch_i (rpc st) + 1) kPostlist);
      [|unfold ret]; rewrite ?app_nil_r; reflexivity.
Qed.

Lemma take_succ_insert {A} (l : list A) (n : nat) (x : A) :
  (n < length l)%nat → take (S n) (<[n := x]> l) = take n l ++ [x].
Proof.
  intros H. rewrite (take_S_r _ _ x) by (by apply list_lookup_insert_eq).
  by rewrite take_insert_ge.
Qed.

Lemma tx_burst_now_st_run st ri mb it m :
  tiny_tid st = creator_tiny_tid (rpc st) →
  ri ≠ nullptr → mb ≠ nullptr →
  0 ≤ tx_batch_i (rpc st) < kPostlist →
  kPostlist ≤ size_t_max →
  tx_burst_arr (rpc st) !! Z.to_nat (tx_batch_i (rpc st)) = Some it →
  msgbufs (mem st) !! mb = Some m →
  is_expl_cr (mem st) m || is_req_for_resp (mem st) m = true →
  tx_burst_now_st ri mb st =
  Ok tt
    (let n := Z.to_nat (tx_batch_i (rpc st)) in
     let ctrl := {| routing_info := ri; msg_buffer := mb; offset := 0;
                    data_bytes := 0; drop := drop it |} in
     {| rpc := {| multi_threaded := multi_threaded (rpc st);
                  creator_tiny_tid := creator_tiny_tid (rpc st);
                  tx_burst_arr := <[n := ctrl]> (tx_burst_arr (rpc st));
                  tx_batch_i := 0;
                  huge_alloc := huge_alloc (rpc st);
                  faults := faults (rpc st) |};
        mem := mem st;
        tiny_tid := tiny_tid st;
        held := held st;
        trace := trace st ++ [EvTxBurst (take n (tx_burst_arr (rpc st)) ++ [ctrl])] |}).
Proof.
  intros Hcr Hri Hmb Hi HP Hit Hm Hty.
  pose proof (lookup_lt_Some _ _ _ Hit) as Hlen.
  unfold tx_burst_now_st. unfold mbind, M_bind, bind.
  rewrite (in_creator_run _ Hcr). simpl.
  rewrite cassert_true by (by rewrite !neqb_nullptr).
  rewrite cassert_true by (apply Z.ltb_lt; lia).
  rewrite (load_Some _ _ _ _ Hm), (cassert_true _ _ Hty).
  do 4 step_item Hlen.
  rewrite size_t_wrap_small by lia.
  replace (Z.to_nat (tx_batch_i (rpc st) + 1))
    with (S (Z.to_nat (tx_batch_i (rpc st)))) by lia.
  rewrite take_succ_insert by exact Hlen.
  reflexivity.
Qed.

(** C3 (as amended).  [tx_burst_now_st] never leaves the control packet in the
    batch: it hands the transport, at once, one burst made of the
    [tx_batch_i] items that were waiting in [tx_burst_arr] followed by the
    control packet (no payload: offset 0, 0 data bytes), and resets
    [tx_batch_i] to 0.  When nothing was waiting ([tx_batch_i = 0]) the
    burst is that control packet alone. *)
Theorem tx_burst_now_st_immediate_burst
    (st : State) (ri mb : Z) (it : tx_burst_item_t) (m : MsgBuffer) :
  tiny_tid st = creator_tiny_tid (rpc st) →
  ri ≠ nullptr → mb ≠ nullptr →
  0 ≤ tx_batch_i (rpc st) < kPostlist →
  kPostlist ≤ size_t_max →
  tx_burst_arr (rpc st) !! Z.to_nat (tx_batch_i (rpc st)) = Some it →
  msgbufs (mem st) !! mb = Some m →
  is_expl_cr (mem st) m || is_req_for_resp (mem st) m = true →
  ∃ st' ctrl,
    tx_burst_now_st ri mb st = Ok tt st'
    ∧ routing_info ctrl = ri ∧ msg_buffer ctrl = mb
    ∧ offset ctrl = 0 ∧ data_bytes ctrl = 0
    ∧ trace st' =
      trace st
      ++ [EvTxBurst (take (Z.to_nat (tx_batch_i (rpc st))) (tx_burst_arr (rpc st))
                     ++ [ctrl])]
    ∧ tx_batch_i (rpc st') = 0
    ∧ (tx_batch_i (rpc st) = 0 → trace st' = trace st ++ [EvTxBurst [ctrl]]).
Proof.
  intros Hcr Hri Hmb Hi HP Hit Hm Hty.
  rewrite (tx_burst_now_st_run _ _ _ _ _ Hcr Hri Hmb Hi HP Hit Hm Hty).
  eexists _, {| routing_info := ri; msg_buffer := mb; offset := 0;
                data_bytes := 0; drop := drop it |}.
  split; [reflexivity|]. simpl.
  do 6 (split; [reflexivity|]). by intros ->.
Qed.

(** C9.  [tx_burst_now_st] writes the routing info, the MsgBuffer pointer,
    offset 0 and 0 data bytes into the item at [tx_burst_arr[tx_batch_i]] and
    leaves that item's [drop] flag as it found it; the control packet goes to
    the transport with that inherited flag.  The fault state is not read or
    written. *)
Theorem tx_burst_now_st_keeps_drop
    (st : State) (ri mb : Z) (it : tx_burst_item_t) (m : MsgBuffer) :
  tiny_tid st = creator_tiny_tid (rpc st) →
  ri ≠ nullptr → mb ≠ nullptr →
  0 ≤ tx_batch_i (rpc st) < kPostlist →
  kPostlist ≤ size_t_max →
  tx_burst_arr (rpc st) !! Z.to_nat (tx_batch_i (rpc st)) = Some it →
  msgbufs (mem st) !! mb = Some m →
  is_expl_cr (mem st) m || is_req_for_resp (mem st) m = true →
  ∃ st' it' pending,
    tx_burst_now_st ri mb st = Ok tt st'
    ∧ tx_burst_arr (rpc st') !! Z.to_nat (tx_batch_i (rpc st)) = Some it'
    ∧ routing_info it' = ri ∧ msg_buffer it' = mb
    ∧ offset it' = 0 ∧ data_bytes it' = 0
    ∧ drop it' = drop it
    ∧ trace st' = trace st ++ [EvTxBurst (pending ++ [it'])]
    ∧ faults (rpc st') = faults (rpc st)
    ∧ (∀ j, j ≠ Z.to_nat (tx_batch_i (rpc st)) →
            tx_burst_arr (rpc st') !! j = tx_burst_arr (rpc st) !! j).
Proof.
  intros Hcr Hri Hmb Hi HP Hit Hm Hty.
  pose proof (lookup_lt_Some _ _ _ Hit) as Hlen.
  rewrite (tx_burst_now_st_run _ _ _ _ _ Hcr Hri Hmb Hi HP Hit Hm Hty).
  eexists _, _, _. split; [reflexivity|]. simpl.
  split; [by apply list_lookup_insert_eq|].
  do 7 (split; [reflexivity|]).
  intros j Hj. by apply list_lookup_insert_ne.
Qed.

(** C10.  One call of [enqueue_pkt_tx_burst_st] adds exactly one to
    [pkts_queued] of the MsgBuffer behind [tx_msgbuf], for every state of the
    fault injector: the MsgBuffer after the call is the same whether the
    packet was marked as dropped or not. *)
Theorem enqueue_pkt_tx_burst_st_counts_packet
    (st : State) (ri mb off db : Z) (it : tx_burst_item_t) (m : MsgBuffer) :
  tiny_tid st = creator_tiny_tid (rpc st) →
  ri ≠ nullptr → mb ≠ nullptr →
  0 ≤ tx_batch_i (rpc st) < kPostlist →
  kPostlist ≤ size_t_max →
  tx_burst_arr (rpc st) !! Z.to_nat (tx_batch_i (rpc st)) = Some it →
  msgbufs (mem st) !! mb = Some m →
  0 ≤ pkts_queued m < size_t_max →
  0 ≤ drop_tx_local_countdown (faults (rpc st)) →
  (kFaultInjection = false → drop it = false) →
  ∃ st' it',
    enqueue_pkt_tx_burst_st ri mb off db st = Ok tt st'
    ∧ msgbufs (mem st') !! mb
      = Some (MsgBuffer_set_pkts_queued (pkts_queued m + 1) m)
    ∧ (∀ p, p ≠ mb → msgbufs (mem st') !! p = msgbufs (mem st) !! p)
    ∧ tx_burst_arr (rpc st') !! Z.to_nat (tx_batch_i (rpc st)) = Some it'
    ∧ drop it' = (kFaultInjection && drop_tx_local (faults (rpc st))
                  && (drop_tx_local_countdown (faults (rpc st)) =? 0)).
Proof.
  intros Hcr Hri Hmb Hi HP Hit Hm Hq Hc Hnf.
  pose proof (lookup_lt_Some _ _ _ Hit) as Hlen.
  rewrite (enqueue_pkt_tx_burst_st_run _ _ _ _ _ _ _ Hcr Hri Hmb Hi HP Hit Hm Hc Hnf).
  eexists _, _. split; [reflexivity|]. simpl.
  split; [rewrite lookup_insert_eq, size_t_wrap_small by lia; done|].
  split; [intros p Hp; by apply lookup_insert_ne|].
  split; [by apply list_lookup_insert_eq | done].
Qed.

(** ** Fault injection: dropping a locally transmitted packet *)

Lemma burst_items_app tr1 tr2 :
  burst_items (tr1 ++ tr2) = burst_items tr1 ++ burst_items tr2.
Proof.
  induction tr1 as [|[ | |items] tr1 IH]; simpl; [done|done|done|].
  by rewrite IH, app_assoc.
Qed.

Lemma valid_args_insert mm mb m a :
  valid_args mm a →
  valid_args (Mem_set_msgbufs (<[mb := m]> (msgbufs mm)) mm) a.
Proof.
  intros (H1 & H2 & H3). repeat split; [done|done|]. simpl.
  apply lookup_insert_is_Some.
  destruct (decide (mb = arg_tx_msgbuf a)); [by left | by right].
Qed.

(** One call, with fault injection compiled in. *)
Lemma enqueue_step st a :
  kFaultInjection = true →
  kPostlist ≤ size_t_max →
  tx_ready st →
  valid_args (mem st) a →
  ∃ st',
    enqueue_pkt_tx_burst_st (arg_routing_info a) (arg_tx_msgbuf a)
      (arg_offset a) (arg_data_bytes a) st = Ok tt st'
    ∧ tx_ready st'
    ∧ (∀ b, valid_args (mem st) b → valid_args (mem st') b)
    ∧ sent_items st' = sent_items st ++ [item_of a (enqueue_drops (faults (rpc st)))]
    ∧ faults (rpc st') = faults_after_enqueue (faults (rpc st)).
Proof.
  intros HFI HP (Hcr & Hi & Hlen & Hc) (Hri & Hmb & [m Hm]).
  assert (Z.to_nat (tx_batch_i (rpc st)) < length (tx_burst_arr (rpc st)))%nat
    as Hlt by lia.
  destruct (lookup_lt_is_Some_2 _ _ Hlt) as [it Hit].
  rewrite (enqueue_pkt_tx_burst_st_run st _ _ (arg_offset a) (arg_data_bytes a)
             it m Hcr Hri Hmb Hi HP Hit Hm)
    by (lia || congruence).
  eexists. split; [reflexivity|]. cbv zeta.
  split; [|split; [|split]].
  - unfold tx_ready. simpl. rewrite length_insert.
    split; [done|]. split; [destruct (Z.eqb_spec (tx_batch_i (rpc st) + 1) kPostlist); lia|].
    split; [done|].
    unfold faults_after_enqueue. rewrite HFI.
    destruct (_ && _); simpl; [done|].
    destruct (drop_tx_local _); simpl; [apply size_t_wrap_range | done].
  - intros b Hb. by apply valid_args_insert.
  - unfold sent_items. simpl.
    destruct (Z.eqb_spec (tx_batch_i (rpc st) + 1) kPostlist) as [Hfull|Hroom].
    + rewrite burst_items_app. simpl. rewrite !app_nil_r, <- Hfull.
      replace (Z.to_nat (tx_batch_i (rpc st) + 1))
        with (S (Z.to_nat (tx_batch_i (rpc st)))) by lia.
      by rewrite take_succ_insert, app_assoc.
    + rewrite app_nil_r.
      replace (Z.to_nat (tx_batch_i (rpc st) + 1))
        with (S (Z.to_nat (tx_batch_i (rpc st)))) by lia.
      by rewrite take_succ_insert, app_assoc.
  - done.
Qed.

Lemma enqueue_all_unarmed pkts : ∀ st,
  kFaultInjection = true →
  kPostlist ≤ size_t_max →
  tx_ready st →
  Forall (valid_args (mem st)) pkts →
  drop_tx_local (faults (rpc st)) = false →
  ∃ st',
    enqueue_all pkts st = Ok tt st'
    ∧ sent_items st' = sent_items st ++ ((λ a, item_of a false) <$> pkts)
    ∧ faults (rpc st') = faults (rpc st).
Proof.
  induction pkts as [|a pkts IH]; intros st HFI HP Hrdy Hval Hoff.
  - exists st. simpl. by rewrite app_nil_r.
  - inversion Hval as [|? ? Ha Hrest]; subst.
    destruct (enqueue_step st a HFI HP Hrdy Ha) as (st1 & Hrun & Hrdy1 & Hpres & Hsent & Hf).
    assert (faults (rpc st1) = faults (rpc st)) as Hf1.
    { rewrite Hf. unfold faults_after_enqueue. by rewrite HFI, Hoff. }
    destruct (IH st1 HFI HP Hrdy1) as (st2 & Hrun2 & Hsent2 & Hf2).
    { eapply Forall_impl; [exact Hrest | exact Hpres]. }
    { by rewrite Hf1. }
    exists st2. simpl. unfold mbind, M_bind, bind. rewrite Hrun.
    split; [exact Hrun2|]. split; [|congruence].
    rewrite Hsent2, Hsent. unfold enqueue_drops.
    rewrite Hoff, andb_false_r. simpl. by rewrite <- app_assoc.
Qed.

(** Arming the fault yields the state that the next theorem starts from. *)
Lemma fault_inject_drop_tx_local_st_arms st n :
  tiny_tid st = creator_tiny_tid (rpc st) →
  ∃ st',
    fault_inject_drop_tx_local_st n st = Ok tt st'
    ∧ drop_tx_local (faults (rpc st')) = true
    ∧ drop_tx_local_countdown (faults (rpc st')) = n
    ∧ sent_items st' = sent_items st
    ∧ mem st' = mem st
    ∧ (0 ≤ n ≤ size_t_max → tx_ready st → tx_ready st').
Proof.
  intros Hcr. unfold fault_inject_drop_tx_local_st, fault_inject_check_ok.
  unfold mbind, M_bind, bind. rewrite (in_creator_run _ Hcr).
  eexists. split; [reflexivity|]. simpl.
  do 4 (split; [done|]). intros Hn (H1 & H2 & H3 & H4).
  unfold tx_ready. simpl. repeat split; (done || lia).
Qed.

(** C6.  With fault injection compiled in, let the fault be armed with
    countdown [n] ([drop_tx_local] set, [drop_tx_local_countdown = n]).  Any
    run of consecutive calls of [enqueue_pkt_tx_burst_st] succeeds, and of the
    packets it puts through the batch the one at position [n] (the
    [n+1]-th) has [drop = true] and every other has [drop = false].  Once
    that packet has been enqueued the fault is disarmed; before, it is still
    armed, with the countdown lowered by the number of packets enqueued. *)
Theorem drop_tx_local_one_shot (pkts : list enqueue_args) : ∀ (st : State) (n : Z),
  kFaultInjection = true →
  kPostlist ≤ size_t_max →
  tx_ready st →
  Forall (valid_args (mem st)) pkts →
  drop_tx_local (faults (rpc st)) = true →
  drop_tx_local_countdown (faults (rpc st)) = n →
  ∃ st',
    enqueue_all pkts st = Ok tt st'
    ∧ sent_items st' =
      sent_items st ++ imap (λ j a, item_of a (bool_decide (j = Z.to_nat n))) pkts
    ∧ (n < Z.of_nat (length pkts) → drop_tx_local (faults (rpc st')) = false)
    ∧ (Z.of_nat (length pkts) ≤ n →
       drop_tx_local (faults (rpc st')) = true
       ∧ drop_tx_local_countdown (faults (rpc st')) = n - Z.of_nat (length pkts)).
Proof.
  induction pkts as [|a pkts IH]; intros st n HFI HP Hrdy Hval Harm Hn.
  - pose proof Hrdy as (_ & _ & _ & Hc).
    exists st. simpl. rewrite app_nil_r.
    split; [done|]. split; [done|]. split; [lia|].
    intros _. split; [done | lia].
  - inversion Hval as [|? ? Ha Hrest]; subst.
    pose proof Hrdy as (_ & _ & _ & Hc).
    destruct (enqueue_step st a HFI HP Hrdy Ha) as (st1 & Hrun & Hrdy1 & Hpres & Hsent & Hf).
    assert (Forall (valid_args (mem st1)) pkts) as Hval1
      by (eapply Forall_impl; [exact Hrest | exact Hpres]).
    unfold enqueue_drops, faults_after_enqueue in Hsent, Hf.
    rewrite HFI, Harm in Hsent, Hf. simpl in Hsent, Hf. rewrite imap_cons.
    destruct (Z.eqb_spec (drop_tx_local_countdown (faults (rpc st))) 0) as [H0|H0].
    + (* the countdown has run out: this packet is dropped *)
      destruct (enqueue_all_unarmed pkts st1 HFI HP Hrdy1 Hval1) as (st2 & Hrun2 & Hsent2 & Hf2);
        [by rewrite Hf|].
      exists st2. simpl. unfold mbind, M_bind, bind. rewrite Hrun.
      split; [exact Hrun2|]. split; [|split].
      * rewrite Hsent2, Hsent, H0, <- app_assoc. simpl. do 2 f_equal.
        rewrite <- (imap_const (λ a, item_of a false)).
        apply imap_ext. by intros j b _.
      * intros _. by rewrite Hf2, Hf.
      * intros Hlen. simpl in Hlen. lia.
    + (* the countdown is lowered and the packet passes *)
      assert (size_t_wrap (drop_tx_local_countdown (faults (rpc st)) - 1)
              = drop_tx_local_countdown (faults (rpc st)) - 1) as Hw
        by (apply size_t_wrap_small; lia).
      destruct (IH st1 (drop_tx_local_countdown (faults (rpc st)) - 1) HFI HP Hrdy1 Hval1)
        as (st2 & Hrun2 & Hsent2 & Hfired & Hstill);
        [by rewrite Hf | by rewrite Hf; simpl | ].
      exists st2. simpl. unfold mbind, M_bind, bind. rewrite Hrun.
      split; [exact Hrun2|]. split; [|split].
      * rewrite Hsent2, Hsent, <- app_assoc. simpl. do 2 f_equal.
        { f_equal. symmetry. apply bool_decide_eq_false_2. lia. }
        apply imap_ext. intros j b _. simpl. f_equal.
        apply bool_decide_ext. lia.
      * intros Hlen. apply Hfired. simpl in Hlen. lia.
      * intros Hlen. simpl in Hlen.
        destruct Hstill as [Hs1 Hs2]; [lia|]. split; [done|]. lia.
Qed.

(** ** The maximum message size *)

Lemma shiftl_one_bits b : 0 ≤ b < 64 → size_t_wrap (Z.shiftl 1 b) = 2 ^ b.
Proof.
  intros Hb. rewrite Z.shiftl_1_l. apply size_t_wrap_small.
  unfold size_t_max. split; [apply Z.pow_nonneg; lia|].
  assert (2 ^ b < 2 ^ 64); [apply Z.pow_lt_mono_r; lia | lia].
Qed.

(** C8.  For constants with which rpc.h compiles (both [static_assert]s
    hold) and for which the header slots of the largest size class fit into
    it, [kMaxMsgSize] is [kMaxClassSize] less
    [kMaxClassSize / kMaxDataPerPkt] header slots, so that many header slots
    and a payload of [kMaxMsgSize] bytes fill the largest size class exactly;
    and [kMaxMsgSize] is at most [2 ^ kMsgSizeBits] and at most
    [2 ^ kPktNumBits] packets of [kMaxDataPerPkt] bytes. *)
Theorem kMaxMsgSize_fits_header_fields :
  0 < kMaxDataPerPkt →
  0 ≤ sizeof_pkthdr_t →
  0 ≤ kMaxClassSize ≤ size_t_max →
  kMaxClassSize / kMaxDataPerPkt * sizeof_pkthdr_t ≤ kMaxClassSize →
  0 ≤ kMsgSizeBits < 64 →
  0 ≤ kPktNumBits < 64 →
  static_assert_msg_size = true →
  static_assert_pkt_num = true →
  kMaxMsgSize = kMaxClassSize - kMaxClassSize / kMaxDataPerPkt * sizeof_pkthdr_t
  ∧ kMaxMsgSize + kMaxClassSize / kMaxDataPerPkt * sizeof_pkthdr_t = kMaxClassSize
  ∧ 0 ≤ kMaxMsgSize
  ∧ kMaxMsgSize ≤ 2 ^ kMsgSizeBits
  ∧ kMaxMsgSize ≤ 2 ^ kPktNumBits * kMaxDataPerPkt.
Proof.
  intros Hk Hh HM Hfit Hmb Hpb Hsa1 Hsa2.
  assert (0 ≤ kMaxClassSize / kMaxDataPerPkt ≤ kMaxClassSize) as Hq.
  { split; [apply Z.div_pos; lia|]. apply Z.div_le_upper_bound; nia. }
  assert (kMaxMsgSize
          = kMaxClassSize - kMaxClassSize / kMaxDataPerPkt * sizeof_pkthdr_t) as Heq.
  { unfold kMaxMsgSize.
    rewrite (size_t_wrap_small (_ / _)) by lia.
    rewrite (size_t_wrap_small (_ * _)) by nia.
    apply size_t_wrap_small. nia. }
  unfold static_assert_msg_size, static_assert_pkt_num in *.
  apply Z.leb_le in Hsa1, Hsa2.
  rewrite shiftl_one_bits in Hsa1, Hsa2 by done.
  split; [done|]. split; [lia|]. split; [nia|]. split; [done|].
  etrans; [exact Hsa2|].
  unfold size_t_wrap. apply Z.mod_le; [|lia].
  apply Z.mul_nonneg_nonneg; [apply Z.pow_nonneg|]; lia.
Qed.

(** X15.  A message of [kMaxMsgSize] bytes can be allocated: when the largest class
    holds at least one packet and the remainder [kMaxClassSize mod
    kMaxDataPerPkt] is covered by the header slots, the request that
    [alloc_msg_buffer kMaxMsgSize] makes is within [kMaxClassSize]. *)
Lemma alloc_request_size_kMaxMsgSize :
  0 < kMaxDataPerPkt →
  0 ≤ sizeof_pkthdr_t →
  kMaxDataPerPkt ≤ kMaxClassSize →
  kMaxClassSize + kMaxDataPerPkt ≤ size_t_max →
  kMaxClassSize mod kMaxDataPerPkt
    ≤ kMaxClassSize / kMaxDataPerPkt * sizeof_pkthdr_t ≤ kMaxClassSize →
  alloc_request_size kMaxMsgSize ≤ kMaxClassSize.
Proof.
  intros Hk Hh HkM HM [Hr Hfit].
  assert (kMaxDataPerPkt ≠ 0) as Hk0 by lia.
  pose proof (Z.div_mod kMaxClassSize kMaxDataPerPkt Hk0) as Hdm.
  pose proof (Z.mod_pos_bound kMaxClassSize kMaxDataPerPkt Hk) as Hrb.
  assert (1 ≤ kMaxClassSize / kMaxDataPerPkt) as Hq
    by (apply Z.div_le_lower_bound; lia).
  assert (kMaxMsgSize
          = kMaxClassSize - kMaxClassSize / kMaxDataPerPkt * sizeof_pkthdr_t) as Heq.
  { unfold kMaxMsgSize.
    rewrite (size_t_wrap_small (_ / _)) by nia.
    rewrite (size_t_wrap_small (_ * _)) by nia.
    apply size_t_wrap_small. nia. }
  assert (Z.max 1 (ceil_div kMaxMsgSize kMaxDataPerPkt)
          ≤ kMaxClassSize / kMaxDataPerPkt) as Hn.
  { apply Z.max_lub; [done|]. apply ceil_div_le; [done|]. nia. }
  assert (Z.max 1 (ceil_div kMaxMsgSize kMaxDataPerPkt) * sizeof_pkthdr_t
          ≤ kMaxClassSize / kMaxDataPerPkt * sizeof_pkthdr_t) as Hnh
    by (apply Z.mul_le_mono_nonneg_r; lia).
  destruct (alloc_request_size_no_overflow kMaxMsgSize) as [-> _]; lia.
Qed.

End Proofs.

(** * Further properties of the code *)

Section MoreProofs.
Context {TTr : Transport} {HA : HugeAllocator} {CM : Common} {MB : MsgBufferOps}.

(** ** MsgBuffer management *)

Lemma num_pkts_no_overflow p :
  0 < kMaxDataPerPkt → 0 ≤ p → p + kMaxDataPerPkt - 1 ≤ size_t_max →
  (if p <=? kMaxDataPerPkt then 1
   else size_t_wrap (p + size_t_wrap (kMaxDataPerPkt - 1)) / kMaxDataPerPkt)
  = Z.max 1 (ceil_div p kMaxDataPerPkt).
Proof.
  intros Hk Hp Ho. destruct (Z.leb_spec p kMaxDataPerPkt) as [Hle|Hgt].
  - destruct (Z.eq_dec p 0) as [->|Hne].
    + unfold ceil_div. rewrite Z.div_small by lia. lia.
    + rewrite ceil_div_small by lia. lia.
  - rewrite (size_t_wrap_small (kMaxDataPerPkt - 1)) by lia.
    rewrite size_t_wrap_small by lia.
    replace (p + (kMaxDataPerPkt - 1)) with (p + kMaxDataPerPkt - 1) by lia.
    fold (ceil_div p kMaxDataPerPkt).
    pose proof (ceil_div_pos p kMaxDataPerPkt Hk ltac:(lia)). lia.
Qed.

Lemma ceil_div_covers a b : 0 < b → a ≤ ceil_div a b * b.
Proof. intros Hb. by apply ceil_div_le. Qed.

Lemma ceil_div_tight a b : 0 < b → (ceil_div a b - 1) * b < a.
Proof.
  intros Hb. destruct (Z_lt_le_dec ((ceil_div a b - 1) * b) a) as [|Hge]; [done|].
  apply (ceil_div_le a b (ceil_div a b - 1) Hb) in Hge. lia.
Qed.

Lemma ceil_div_mono a a' b : 0 < b → a ≤ a' → ceil_div a b ≤ ceil_div a' b.
Proof.
  intros Hb Ha. apply ceil_div_le; [done|].
  pose proof (ceil_div_covers a' b Hb). lia.
Qed.

(** X1.  A MsgBuffer that [alloc_msg_buffer] returns after a successful
    allocation meets the assertions of [free_msg_buffer], and freeing it
    hands the allocator the very [Buffer] it gave out: the two calls leave
    one [alloc] and one [free_buf] in the log and no mutex held. *)
Theorem alloc_then_free_round_trip (st : State) (p : Z) (b : Buffer) (ha : HugeAlloc) :
  HugeAlloc_alloc (huge_alloc (rpc st)) (alloc_request_size p) = (Some b, ha) →
  Buffer_buf b ≠ nullptr →
  ∃ m st1 st2,
    alloc_msg_buffer p st = Ok m st1
    ∧ free_msg_buffer m st1 = Ok tt st2
    ∧ trace st2 = trace st ++ [EvAlloc (alloc_request_size p); EvFreeBuf b]
    ∧ huge_alloc (rpc st2) = HugeAlloc_free_buf ha b
    ∧ held st2 = held st.
Proof.
  intros Ha Hb. rewrite alloc_msg_buffer_run, Ha.
  destruct (Z.eqb_spec (Buffer_buf b) nullptr) as [|_]; [done|].
  unfold MsgBuffer_ctor, mbind, M_bind, bind, modify_mem, modify, ret. simpl.
  eexists _, _, _. split; [reflexivity|].
  split.
  - apply free_msg_buffer_run.
    + unfold is_dynamic. simpl. by apply neqb_nullptr.
    + unfold check_magic, get_pkthdr_0. simpl.
      replace (Buffer_buf b + sizeof_pkthdr_t - sizeof_pkthdr_t)
        with (Buffer_buf b) by lia.
      rewrite lookup_insert_eq. simpl. apply Z.eqb_refl.
  - simpl. rewrite <- app_assoc. done.
Qed.

(** X2.  The header slots that [alloc_msg_buffer] provides are exactly those
    the payload needs: the MsgBuffer of a successful allocation has at least
    one packet, its packets of [kMaxDataPerPkt] bytes cover [max_data_size],
    and one packet fewer would not. *)
Theorem alloc_msg_buffer_packet_count (st : State) (p : Z) (b : Buffer) (ha : HugeAlloc) :
  0 < kMaxDataPerPkt →
  0 ≤ p →
  p + kMaxDataPerPkt - 1 ≤ size_t_max →
  HugeAlloc_alloc (huge_alloc (rpc st)) (alloc_request_size p) = (Some b, ha) →
  Buffer_buf b ≠ nullptr →
  ∃ m st',
    alloc_msg_buffer p st = Ok m st'
    ∧ max_data_size m = p
    ∧ data_size m = p
    ∧ num_pkts m = max_num_pkts m
    ∧ 1 ≤ max_num_pkts m
    ∧ p ≤ max_num_pkts m * kMaxDataPerPkt
    ∧ (0 < p → (max_num_pkts m - 1) * kMaxDataPerPkt < p).
Proof.
  intros Hk Hp Ho Ha Hb. rewrite alloc_msg_buffer_run, Ha.
  destruct (Z.eqb_spec (Buffer_buf b) nullptr) as [|_]; [done|].
  unfold MsgBuffer_ctor, mbind, M_bind, bind, modify_mem, modify, ret. simpl.
  rewrite (num_pkts_no_overflow p Hk Hp Ho).
  eexists _, _. split; [reflexivity|]. simpl.
  do 3 (split; [done|]).
  pose proof (ceil_div_covers p kMaxDataPerPkt Hk).
  pose proof (ceil_div_tight p kMaxDataPerPkt Hk).
  split; [lia|]. split; [nia|].
  intros Hpos. pose proof (ceil_div_pos p kMaxDataPerPkt Hk Hpos).
  by rewrite Z.max_r by lia.
Qed.

(** [free_msg_buffer] stops at its assertion, before any call to the
    allocator, on a MsgBuffer that is not dynamic or whose header[0] does not
    carry the magic. *)
Lemma free_msg_buffer_refuses_fake (st : State) (m : MsgBuffer) :
  is_dynamic m = false ∨ check_magic (mem st) m = false →
  free_msg_buffer m st = Raise AssertionFailure.
Proof.
  intros H. unfold free_msg_buffer, mbind, M_bind, bind, gets.
  rewrite cassert_false; [done|].
  destruct H as [-> | ->]; [done | apply andb_false_r].
Qed.

(** X3.  [resize_msg_buffer] to a size within [max_data_size] succeeds on a
    valid MsgBuffer and calls [resize] with the packet count
    [max 1 (ceil (new_data_size / kMaxDataPerPkt))], which covers the new
    size and does not exceed the packet count of the allocation; packet
    headers, other MsgBuffers and the log are untouched.  A size above
    [max_data_size] stops at the assertion. *)
Theorem resize_msg_buffer_within_allocation
    (st : State) (msg_buffer new_data_size : Z) (m : MsgBuffer) :
  0 < kMaxDataPerPkt →
  msg_buffer ≠ nullptr →
  msgbufs (mem st) !! msg_buffer = Some m →
  buf m ≠ nullptr →
  check_magic (mem st) m = true →
  0 ≤ new_data_size →
  max_data_size m + kMaxDataPerPkt - 1 ≤ size_t_max →
  Z.max 1 (ceil_div (max_data_size m) kMaxDataPerPkt) ≤ max_num_pkts m →
  (new_data_size ≤ max_data_size m →
   ∃ st' n,
     resize_msg_buffer msg_buffer new_data_size st = Ok tt st'
     ∧ n = Z.max 1 (ceil_div new_data_size kMaxDataPerPkt)
     ∧ 1 ≤ n ≤ max_num_pkts m
     ∧ new_data_size ≤ n * kMaxDataPerPkt
     ∧ msgbufs (mem st') !! msg_buffer = Some (MsgBuffer_resize new_data_size n m)
     ∧ (∀ p, p ≠ msg_buffer → msgbufs (mem st') !! p = msgbufs (mem st) !! p)
     ∧ pkthdrs (mem st') = pkthdrs (mem st)
     ∧ trace st' = trace st)
  ∧ (max_data_size m < new_data_size →
     resize_msg_buffer msg_buffer new_data_size st = Raise AssertionFailure).
Proof.
  intros Hk Hnn Hm Hbuf Hmagic Hq Ho Hmax.
  unfold resize_msg_buffer, mbind, M_bind, bind, gets.
  rewrite (cassert_true _ _ (neqb_nullptr _ Hnn)), (load_Some _ _ _ _ Hm).
  rewrite cassert_true by (by rewrite (neqb_nullptr _ Hbuf), Hmagic).
  split; intros Hle.
  - rewrite cassert_true by (by apply Z.leb_le).
    rewrite (num_pkts_no_overflow new_data_size) by lia.
    erewrite update_msgbuf_run by exact Hm.
    eexists _, _. split; [reflexivity|]. split; [reflexivity|]. simpl.
    pose proof (ceil_div_mono new_data_size (max_data_size m) kMaxDataPerPkt Hk Hle).
    pose proof (ceil_div_covers new_data_size kMaxDataPerPkt Hk).
    split; [lia|]. split; [nia|].
    split; [apply lookup_insert_eq|].
    split; [intros p Hp; by apply lookup_insert_ne | done].
  - by rewrite cassert_false by (by apply Z.leb_gt).
Qed.

(** X4.  [is_usr_session_num_in_range] holds exactly for the [int]s that index
    an entry of [session_vec]; a negative number is rejected before the cast
    to [size_t] could turn it into a large index. *)
Theorem is_usr_session_num_in_range_iff (session_vec : list Z) (session_num : Z) :
  - 2 ^ 31 ≤ session_num < 2 ^ 31 →
  is_usr_session_num_in_range session_vec session_num = true
  ↔ 0 ≤ session_num ∧ is_Some (session_vec !! Z.to_nat session_num).
Proof.
  intros Hint. unfold is_usr_session_num_in_range.
  rewrite andb_true_iff, Z.leb_le, Z.ltb_lt, lookup_lt_is_Some.
  split; intros [H0 H1]; (split; [done|]).
  - rewrite size_t_wrap_small in H1 by (unfold size_t_max; lia). lia.
  - rewrite size_t_wrap_small by (unfold size_t_max; lia). lia.
Qed.

(** ** Burial, once more *)

(** X5.  Burying the RX MsgBuffer of a slot a second time changes nothing:
    after [bury_sslot_rx_msgbuf] the slot's RX MsgBuffer is no longer dynamic,
    a second [bury_sslot_rx_msgbuf] (or [bury_sslot_rx_msgbuf_nofree]) returns
    the same state without calling the allocator, and [free_msg_buffer] on
    the buried MsgBuffer stops at its assertion.  A buffer is freed at most
    once through the slot. *)
Theorem bury_sslot_rx_msgbuf_idempotent (st : State) (sslot : Z) (sl : SSlot) :
  sslot ≠ nullptr →
  sslots (mem st) !! sslot = Some sl →
  (is_dynamic (rx_msgbuf sl) = true →
   buf (rx_msgbuf sl) ≠ nullptr ∧ check_magic (mem st) (rx_msgbuf sl) = true) →
  ∃ st' sl',
    bury_sslot_rx_msgbuf sslot st = Ok tt st'
    ∧ sslots (mem st') !! sslot = Some sl'
    ∧ is_dynamic (rx_msgbuf sl') = false
    ∧ bury_sslot_rx_msgbuf sslot st' = Ok tt st'
    ∧ bury_sslot_rx_msgbuf_nofree sslot st' = Ok tt st'
    ∧ free_msg_buffer (rx_msgbuf sl') st' = Raise AssertionFailure.
Proof.
  intros Hnn Hsl Hpre.
  rewrite (bury_sslot_rx_msgbuf_spec _ _ _ Hnn Hsl Hpre).
  set (sl' := SSlot_set_rx_msgbuf (buried_rx (rx_msgbuf sl)) sl).
  assert (is_dynamic (rx_msgbuf sl') = false) as Hd'.
  { unfold sl', buried_rx, is_dynamic. simpl.
    destruct (negb (Buffer_buf (buffer (rx_msgbuf sl)) =? nullptr)) eqn:E; simpl;
      [done | by rewrite E]. }
  assert (SSlot_set_rx_msgbuf (buried_rx (rx_msgbuf sl')) sl' = sl') as Hfix.
  { unfold buried_rx. rewrite Hd'. reflexivity. }
  assert (SSlot_set_rx_msgbuf (MsgBuffer_set_buf nullptr (rx_msgbuf sl')) sl' = sl')
    as Hfix' by reflexivity.
  eexists _, sl'. split; [reflexivity|].
  split; [apply lookup_insert_eq|]. split; [exact Hd'|].
  split; [|split].
  - erewrite bury_sslot_rx_msgbuf_spec;
      [ | exact Hnn | simpl; apply lookup_insert_eq | by rewrite Hd' ].
    unfold Rpc_after_bury, free_events. rewrite Hd', Hfix. simpl.
    by rewrite insert_insert_eq, app_nil_r.
  - erewrite bury_sslot_rx_msgbuf_nofree_spec;
      [ | exact Hnn | simpl; apply lookup_insert_eq ].
    rewrite Hd', Hfix'. unfold State_set_mem. simpl.
    by rewrite insert_insert_eq.
  - apply free_msg_buffer_refuses_fake. by left.
Qed.

(** X6.  [bury_sslot_tx_msgbuf] leaves the MsgBuffer object behind the pointer
    as it was and only clears the pointer; a second call finds the pointer
    null, makes no allocator call and returns the same state. *)
Theorem bury_sslot_tx_msgbuf_idempotent (st : State) (sslot : Z) (sl : SSlot) :
  sslot ≠ nullptr →
  sslots (mem st) !! sslot = Some sl →
  (tx_msgbuf sl ≠ nullptr →
   ∃ m, msgbufs (mem st) !! tx_msgbuf sl = Some m
        ∧ (is_dynamic m = true →
           buf m ≠ nullptr ∧ check_magic (mem st) m = true)) →
  ∃ st',
    bury_sslot_tx_msgbuf sslot st = Ok tt st'
    ∧ msgbufs (mem st') = msgbufs (mem st)
    ∧ bury_sslot_tx_msgbuf sslot st' = Ok tt st'
    ∧ bury_sslot_tx_msgbuf_nofree sslot st' = Ok tt st'.
Proof.
  intros Hnn Hsl Hpre.
  rewrite (bury_sslot_tx_msgbuf_spec _ _ _ Hnn Hsl Hpre).
  eexists. split; [reflexivity|]. split; [done|]. split.
  - erewrite bury_sslot_tx_msgbuf_spec;
      [ | exact Hnn | simpl; apply lookup_insert_eq | simpl; done ].
    unfold tx_msgbuf_of. simpl. by rewrite insert_insert_eq, app_nil_r.
  - erewrite bury_sslot_tx_msgbuf_nofree_spec;
      [ | exact Hnn | simpl; apply lookup_insert_eq ].
    unfold State_set_mem. simpl. by rewrite insert_insert_eq.
Qed.

(** X7.  [bury_sslot_tx_msgbuf_nofree] gives the request MsgBuffer back to its
    owner: also for a dynamic MsgBuffer it makes no allocator call and changes
    neither the MsgBuffer nor the slot's RX MsgBuffer, so that the owner's
    [free_msg_buffer] afterwards succeeds and is the only [free_buf]. *)
Theorem bury_sslot_tx_msgbuf_nofree_keeps_buffer
    (st : State) (sslot : Z) (sl : SSlot) (m : MsgBuffer) :
  sslot ≠ nullptr →
  sslots (mem st) !! sslot = Some sl →
  msgbufs (mem st) !! tx_msgbuf sl = Some m →
  is_dynamic m = true →
  check_magic (mem st) m = true →
  ∃ st' sl' st'',
    bury_sslot_tx_msgbuf_nofree sslot st = Ok tt st'
    ∧ trace st' = trace st
    ∧ rpc st' = rpc st
    ∧ msgbufs (mem st') = msgbufs (mem st)
    ∧ sslots (mem st') !! sslot = Some sl'
    ∧ tx_msgbuf sl' = nullptr
    ∧ rx_msgbuf sl' = rx_msgbuf sl
    ∧ free_msg_buffer m st' = Ok tt st''
    ∧ trace st'' = trace st ++ [EvFreeBuf (buffer m)].
Proof.
  intros Hnn Hsl Hm Hd Hmagic.
  rewrite (bury_sslot_tx_msgbuf_nofree_spec _ _ _ Hnn Hsl).
  eexists _, _, _. split; [reflexivity|]. simpl.
  do 3 (split; [done|]). split; [apply lookup_insert_eq|].
  do 2 (split; [done|]).
  split; [by apply free_msg_buffer_run | done].
Qed.

(** ** release_respone, once more *)



(** ** bump_credits, repeated *)

Lemma bump_credits_run st session se :
  sessions (mem st) !! session = Some se →
  is_client se = true →
  0 ≤ credits se →
  kSessionCredits ≤ size_t_max →
  bump_credits session st =
  if credits se <? kSessionCredits
  then Ok tt (State_set_mem
                (Mem_set_sessions
                   (<[session := Session_set_credits (credits se + 1) se]>
                      (sessions (mem st))) (mem st)) st)
  else Raise AssertionFailure.
Proof.
  intros Hse Hcl H0 HC. unfold bump_credits, mbind, M_bind, bind.
  rewrite (load_Some _ _ _ _ Hse), (cassert_true _ _ Hcl).
  destruct (Z.ltb_spec (credits se) kSessionCredits) as [Hlt|Hge].
  - rewrite cassert_true by done.
    erewrite update_session_run by exact Hse.
    by rewrite size_t_wrap_small by lia.
  - by rewrite cassert_false.
Qed.

(** X9.  Credits can be returned only up to the session's limit: [n] calls of
    [bump_credits] on a client session all succeed and add [n] credits when
    [credits + n <= kSessionCredits], and otherwise one of them stops at the
    assertion. *)
Theorem bump_credits_n_until_full (n : nat) : ∀ (st : State) (session : Z) (se : Session),
  sessions (mem st) !! session = Some se →
  is_client se = true →
  0 ≤ credits se ≤ kSessionCredits →
  kSessionCredits ≤ size_t_max →
  (credits se + Z.of_nat n ≤ kSessionCredits →
   ∃ st' se',
     bump_credits_n n session st = Ok tt st'
     ∧ sessions (mem st') !! session = Some se'
     ∧ credits se' = credits se + Z.of_nat n
     ∧ role se' = role se
     ∧ sslot_free_vec se' = sslot_free_vec se)
  ∧ (kSessionCredits < credits se + Z.of_nat n →
     bump_credits_n n session st = Raise AssertionFailure).
Proof.
  induction n as [|n IH]; intros st session se Hse Hcl Hc HC.
  - split; [|lia]. intros _. exists st, se. simpl.
    split; [done|]. split; [done|]. split; [lia | done].
  - simpl bump_credits_n. unfold mbind, M_bind, bind.
    rewrite (bump_credits_run _ _ _ Hse Hcl) by lia.
    destruct (Z.ltb_spec (credits se) kSessionCredits) as [Hlt|Hge].
    + edestruct (IH (State_set_mem
                       (Mem_set_sessions
                          (<[session := Session_set_credits (credits se + 1) se]>
                             (sessions (mem st))) (mem st)) st)
                    session (Session_set_credits (credits se + 1) se))
        as [IHok IHfail];
        [simpl; apply lookup_insert_eq | exact Hcl | simpl; lia | exact HC |].
      simpl in IHok, IHfail. split; intros Hn.
      * destruct IHok as (st' & se' & H1 & H2 & H3 & H4 & H5); [lia|].
        exists st', se'. split; [exact H1|]. split; [exact H2|].
        split; [lia|]. by split.
      * apply IHfail. lia.
    + split; [lia | done].
Qed.

(** ** TX, runs of calls *)

Lemma bursts_app tr1 tr2 : bursts (tr1 ++ tr2) = bursts tr1 ++ bursts tr2.
Proof.
  induction tr1 as [|[ | |items] tr1 IH]; simpl; [done|done|done|].
  by rewrite IH.
Qed.

Lemma enqueue_step_gen st a :
  kPostlist ≤ size_t_max →
  tx_ready st →
  tx_clean st →
  valid_args (mem st) a →
  ∃ st' m,
    enqueue_pkt_tx_burst_st (arg_routing_info a) (arg_tx_msgbuf a)
      (arg_offset a) (arg_data_bytes a) st = Ok tt st'
    ∧ tx_ready st'
    ∧ tx_clean st'
    ∧ msgbufs (mem st) !! arg_tx_msgbuf a = Some m
    ∧ mem st' =
      Mem_set_msgbufs
        (<[arg_tx_msgbuf a :=
             MsgBuffer_set_pkts_queued (size_t_wrap (pkts_queued m + 1)) m]>
           (msgbufs (mem st))) (mem st)
    ∧ sent_items st' = sent_items st ++ [item_of a (enqueue_drops (faults (rpc st)))]
    ∧ faults (rpc st') = faults_after_enqueue (faults (rpc st))
    ∧ tx_batch_i (rpc st') =
      (if tx_batch_i (rpc st) + 1 =? kPostlist then 0 else tx_batch_i (rpc st) + 1)
    ∧ ∃ new,
        bursts (trace st') = bursts (trace st) ++ new
        ∧ Forall (λ b, length b = Z.to_nat kPostlist) new
        ∧ length new = if tx_batch_i (rpc st) + 1 =? kPostlist then 1%nat else 0%nat.
Proof.
  intros HP (Hcr & Hi & Hlen & Hc) Hclean (Hri & Hmb & [m Hm]).
  assert (Z.to_nat (tx_batch_i (rpc st)) < length (tx_burst_arr (rpc st)))%nat
    as Hlt by lia.
  destruct (lookup_lt_is_Some_2 _ _ Hlt) as [it Hit].
  assert (kFaultInjection = false → drop it = false) as Hnf.
  { intros HFI. specialize (Hclean HFI).
    by apply (proj1 (Forall_lookup _ _) Hclean _ _ Hit). }
  rewrite (enqueue_pkt_tx_burst_st_run st _ _ (arg_offset a) (arg_data_bytes a)
             it m Hcr Hri Hmb Hi HP Hit Hm) by (lia || done).
  eexists _, m. split; [reflexivity|]. cbv zeta.
  split; [|split; [|split; [done|split; [done|split; [|split; [done|split; [done|]]]]]]].
  - unfold tx_ready. simpl. rewrite length_insert.
    split; [done|].
    split; [destruct (Z.eqb_spec (tx_batch_i (rpc st) + 1) kPostlist); lia|].
    split; [done|].
    unfold faults_after_enqueue. destruct kFaultInjection; [|done].
    destruct (_ && _); simpl; [done|].
    destruct (drop_tx_local _); simpl; [apply size_t_wrap_range | done].
  - intros HFI. simpl. apply Forall_insert; [by apply Hclean|].
    unfold enqueue_drops. by rewrite HFI.
  - unfold sent_items. simpl.
    destruct (Z.eqb_spec (tx_batch_i (rpc st) + 1) kPostlist) as [Hfull|Hroom].
    + rewrite burst_items_app. simpl. rewrite !app_nil_r, <- Hfull.
      replace (Z.to_nat (tx_batch_i (rpc st) + 1))
        with (S (Z.to_nat (tx_batch_i (rpc st)))) by lia.
      by rewrite take_succ_insert, app_assoc.
    + rewrite app_nil_r.
      replace (Z.to_nat (tx_batch_i (rpc st) + 1))
        with (S (Z.to_nat (tx_batch_i (rpc st)))) by lia.
      by rewrite take_succ_insert, app_assoc.
  - simpl. rewrite bursts_app.
    destruct (Z.eqb_spec (tx_batch_i (rpc st) + 1) kPostlist) as [Hfull|Hroom].
    + eexists. split; [reflexivity|]. split; [|done].
      apply Forall_singleton. rewrite length_take, length_insert. lia.
    + exists []. simpl. by split.
Qed.

Lemma valid_args_after_enqueue mm mb m x b :
  msgbufs mm !! mb = Some m →
  valid_args mm b →
  valid_args
    (Mem_set_msgbufs (<[mb := MsgBuffer_set_pkts_queued x m]> (msgbufs mm)) mm) b.
Proof. intros _. apply valid_args_insert. Qed.

Lemma valid_op_after_enqueue mm mb m x op :
  msgbufs mm !! mb = Some m →
  valid_op mm op →
  valid_op
    (Mem_set_msgbufs (<[mb := MsgBuffer_set_pkts_queued x m]> (msgbufs mm)) mm) op.
Proof.
  intros Hm. destruct op as [b|ri p]; simpl.
  - by apply valid_args_after_enqueue.
  - intros (H1 & H2 & m' & Hm' & Hty). split; [done|]. split; [done|].
    destruct (decide (mb = p)) as [->|Hne].
    + rewrite lookup_insert_eq. eexists. split; [reflexivity|].
      assert (m' = m) as -> by congruence. exact Hty.
    + rewrite lookup_insert_ne by done. by exists m'.
Qed.

Lemma now_step st ri mb :
  kPostlist ≤ size_t_max →
  tx_ready st →
  tx_clean st →
  valid_op (mem st) (OpNow ri mb) →
  ∃ st' ctrl,
    tx_burst_now_st ri mb st = Ok tt st'
    ∧ tx_ready st'
    ∧ tx_clean st'
    ∧ mem st' = mem st
    ∧ faults (rpc st') = faults (rpc st)
    ∧ huge_alloc (rpc st') = huge_alloc (rpc st)
    ∧ same_packet (OpNow ri mb) ctrl
    ∧ sent_items st' = sent_items st ++ [ctrl]
    ∧ burst_items (trace st') = sent_items st'.
Proof.
  intros HP (Hcr & Hi & Hlen & Hc) Hclean (Hri & Hmb & m & Hm & Hty).
  assert (Z.to_nat (tx_batch_i (rpc st)) < length (tx_burst_arr (rpc st)))%nat
    as Hlt by lia.
  destruct (lookup_lt_is_Some_2 _ _ Hlt) as [it Hit].
  rewrite (tx_burst_now_st_run _ _ _ _ _ Hcr Hri Hmb Hi HP Hit Hm Hty).
  eexists _, {| routing_info := ri; msg_buffer := mb; offset := 0;
                data_bytes := 0; drop := drop it |}.
  split; [reflexivity|]. cbv zeta.
  split; [|split; [|split; [done|split; [done|split; [done|split; [done|]]]]]].
  - unfold tx_ready. simpl. rewrite length_insert. repeat split; (done || lia).
  - intros HFI. simpl. apply Forall_insert; [by apply Hclean|]. simpl.
    specialize (Hclean HFI). by apply (proj1 (Forall_lookup _ _) Hclean _ _ Hit).
  - unfold sent_items. simpl. rewrite burst_items_app. simpl.
    rewrite !app_nil_r. split; [by rewrite app_assoc | done].
Qed.

(** X10.  Deferred packets leave in full batches only: a run of [m] calls of
    [enqueue_pkt_tx_burst_st] that starts with [i] packets waiting makes
    [(i + m) / kPostlist] calls of [tx_burst], each with exactly [kPostlist]
    items, and leaves [(i + m) mod kPostlist] packets waiting, so the batch
    array never overflows. *)
Theorem enqueue_all_full_batches (pkts : list enqueue_args) : ∀ (st : State),
  kPostlist ≤ size_t_max →
  tx_ready st →
  tx_clean st →
  Forall (valid_args (mem st)) pkts →
  ∃ st' new,
    enqueue_all pkts st = Ok tt st'
    ∧ bursts (trace st') = bursts (trace st) ++ new
    ∧ Forall (λ b, length b = Z.to_nat kPostlist) new
    ∧ Z.of_nat (length new)
      = (tx_batch_i (rpc st) + Z.of_nat (length pkts)) / kPostlist
    ∧ tx_batch_i (rpc st')
      = (tx_batch_i (rpc st) + Z.of_nat (length pkts)) mod kPostlist.
Proof.
  induction pkts as [|a pkts IH]; intros st HP Hrdy Hclean Hval.
  - pose proof Hrdy as (_ & Hi & _). exists st, []. simpl.
    rewrite app_nil_r, Z.add_0_r, Z.div_small, Z.mod_small by lia. done.
  - inversion Hval as [|? ? Ha Hrest]; subst.
    pose proof Hrdy as (_ & Hi & _).
    destruct (enqueue_step_gen st a HP Hrdy Hclean Ha)
      as (st1 & m & Hrun & Hrdy1 & Hclean1 & Hm & Hmem & _ & _ & Hi1 & new1 & Hb1 & Hf1 & Hl1).
    destruct (IH st1 HP Hrdy1 Hclean1) as (st2 & new2 & Hrun2 & Hb2 & Hf2 & Hl2 & Hi2).
    { rewrite Hmem. eapply Forall_impl; [exact Hrest|].
      intros b. by apply valid_args_after_enqueue. }
    exists st2, (new1 ++ new2). simpl enqueue_all.
    unfold mbind, M_bind, bind. rewrite Hrun.
    split; [exact Hrun2|]. split; [by rewrite Hb2, Hb1, app_assoc|].
    split; [by apply Forall_app|].
    rewrite length_app, Nat2Z.inj_add, Hl2, Hi2, Hi1, Hl1.
    replace (Z.of_nat (length (a :: pkts))) with (1 + Z.of_nat (length pkts))
      by (simpl length; lia).
    destruct (Z.eqb_spec (tx_batch_i (rpc st) + 1) kPostlist) as [Hfull|Hroom].
    + replace (tx_batch_i (rpc st) + (1 + Z.of_nat (length pkts)))
        with (Z.of_nat (length pkts) + 1 * kPostlist) by lia.
      rewrite Z.div_add; [|lia]. rewrite Z.mod_add; [|lia].
      rewrite Z.add_0_l. split; [lia | done].
    + replace (tx_batch_i (rpc st) + (1 + Z.of_nat (length pkts)))
        with (tx_batch_i (rpc st) + 1 + Z.of_nat (length pkts)) by lia.
      done.
Qed.

(** X11.  The transport sees every packet once and in program order, across
    both TX paths: after any run of [enqueue_pkt_tx_burst_st] and
    [tx_burst_now_st] calls, the packets handed to [tx_burst] followed by
    those still waiting are the earlier ones followed by one item per call,
    in call order, each with the routing info, MsgBuffer, offset and length
    of its call.  Header-only packets do not touch the fault injector: its
    state is the one the deferred packets alone would leave. *)
Theorem run_ops_in_order (ops : list tx_op) : ∀ (st : State),
  kPostlist ≤ size_t_max →
  tx_ready st →
  tx_clean st →
  Forall (valid_op (mem st)) ops →
  ∃ st' items,
    run_ops ops st = Ok tt st'
    ∧ sent_items st' = sent_items st ++ items
    ∧ Forall2 same_packet ops items
    ∧ faults (rpc st')
      = Nat.iter (length (enqueued ops)) faults_after_enqueue (faults (rpc st))
    ∧ tx_ready st'.
Proof.
  induction ops as [|op ops IH]; intros st HP Hrdy Hclean Hval.
  - exists st, []. simpl. by rewrite app_nil_r.
  - inversion Hval as [|? ? Hop Hrest]; subst.
    destruct op as [a|ri mb].
    + destruct (enqueue_step_gen st a HP Hrdy Hclean Hop)
        as (st1 & m & Hrun & Hrdy1 & Hclean1 & Hm & Hmem & Hsent & Hflt & _).
      destruct (IH st1 HP Hrdy1 Hclean1) as (st2 & items & Hrun2 & Hsent2 & Hall & Hflt2 & Hrdy2).
      { rewrite Hmem. eapply Forall_impl; [exact Hrest|].
        intros b. by apply valid_op_after_enqueue. }
      exists st2, (item_of a (enqueue_drops (faults (rpc st))) :: items).
      simpl run_ops. unfold mbind, M_bind, bind. simpl run_op. rewrite Hrun.
      split; [exact Hrun2|].
      split; [by rewrite Hsent2, Hsent, <- app_assoc|].
      split; [by constructor|]. split; [|done].
      rewrite Hflt2, Hflt.
      change (length (enqueued (OpEnqueue a :: ops)))
        with (S (length (enqueued ops))).
      by rewrite Nat.iter_succ_r.
    + destruct (now_step st ri mb HP Hrdy Hclean Hop)
        as (st1 & ctrl & Hrun & Hrdy1 & Hclean1 & Hmem & Hflt & _ & Hsame & Hsent & _).
      destruct (IH st1 HP Hrdy1 Hclean1) as (st2 & items & Hrun2 & Hsent2 & Hall & Hflt2 & Hrdy2).
      { by rewrite Hmem. }
      exists st2, (ctrl :: items).
      simpl run_ops. unfold mbind, M_bind, bind. simpl run_op. rewrite Hrun.
      split; [exact Hrun2|].
      split; [by rewrite Hsent2, Hsent, <- app_assoc|].
      split; [by constructor|]. split; [|done].
      by rewrite Hflt2, Hflt.
Qed.

Lemma faults_after_enqueue_quiet f :
  kFaultInjection = false ∨ drop_tx_local f = false →
  enqueue_drops f = false ∧ faults_after_enqueue f = f.
Proof.
  unfold enqueue_drops, faults_after_enqueue.
  intros [-> | ->]; [done|]. by destruct kFaultInjection.
Qed.

Lemma enqueue_all_quiet (pkts : list enqueue_args) : ∀ (st : State),
  kPostlist ≤ size_t_max →
  tx_ready st →
  tx_clean st →
  Forall (valid_args (mem st)) pkts →
  kFaultInjection = false ∨ drop_tx_local (faults (rpc st)) = false →
  ∃ st',
    enqueue_all pkts st = Ok tt st'
    ∧ sent_items st' = sent_items st ++ ((λ a, item_of a false) <$> pkts)
    ∧ faults (rpc st') = faults (rpc st).
Proof.
  induction pkts as [|a pkts IH]; intros st HP Hrdy Hclean Hval Hq.
  - exists st. simpl. by rewrite app_nil_r.
  - inversion Hval as [|? ? Ha Hrest]; subst.
    destruct (faults_after_enqueue_quiet _ Hq) as [Hd Hf].
    destruct (enqueue_step_gen st a HP Hrdy Hclean Ha)
      as (st1 & m & Hrun & Hrdy1 & Hclean1 & Hm & Hmem & Hsent & Hflt & _).
    rewrite Hd in Hsent. rewrite Hf in Hflt.
    destruct (IH st1 HP Hrdy1 Hclean1) as (st2 & Hrun2 & Hsent2 & Hflt2).
    { rewrite Hmem. eapply Forall_impl; [exact Hrest|].
      intros b. by apply valid_args_after_enqueue. }
    { by rewrite Hflt. }
    exists st2. simpl enqueue_all. unfold mbind, M_bind, bind. rewrite Hrun.
    split; [exact Hrun2|]. split; [|congruence].
    rewrite Hsent2, Hsent, <- app_assoc. done.
Qed.

Lemma filter_drop_item_of_false (pkts : list enqueue_args) :
  filter (λ it, drop it = true) ((λ a, item_of a false) <$> pkts) = [].
Proof.
  induction pkts as [|a pkts IH]; [done|]. simpl.
  by rewrite filter_cons_False.
Qed.

(** X12.  One arming drops at most one packet: whatever the state of the fault
    injector, a run of [enqueue_pkt_tx_burst_st] calls puts one item per call
    through the batch and marks at most one of them as dropped; when fault
    injection is not compiled in, or no fault is armed, it marks none and
    leaves the fault state as it was. *)
Theorem enqueue_all_drops_at_most_one (pkts : list enqueue_args) : ∀ (st : State),
  kPostlist ≤ size_t_max →
  tx_ready st →
  tx_clean st →
  Forall (valid_args (mem st)) pkts →
  ∃ st' items,
    enqueue_all pkts st = Ok tt st'
    ∧ sent_items st' = sent_items st ++ items
    ∧ length items = length pkts
    ∧ (length (filter (λ it, drop it = true) items) ≤ 1)%nat
    ∧ (kFaultInjection = false ∨ drop_tx_local (faults (rpc st)) = false →
       filter (λ it, drop it = true) items = []
       ∧ faults (rpc st') = faults (rpc st)).
Proof.
  induction pkts as [|a pkts IH]; intros st HP Hrdy Hclean Hval.
  - exists st, []. simpl. rewrite app_nil_r. repeat split; (done || lia).
  - inversion Hval as [|? ? Ha Hrest]; subst.
    destruct (enqueue_step_gen st a HP Hrdy Hclean Ha)
      as (st1 & m & Hrun & Hrdy1 & Hclean1 & Hm & Hmem & Hsent & Hflt & _).
    assert (Forall (valid_args (mem st1)) pkts) as Hval1.
    { rewrite Hmem. eapply Forall_impl; [exact Hrest|].
      intros b. by apply valid_args_after_enqueue. }
    destruct (enqueue_drops (faults (rpc st))) eqn:Hd.
    + (* this packet is dropped: the fault is disarmed for the rest *)
      unfold enqueue_drops in Hd. apply andb_true_iff in Hd as [Hd H0].
      apply andb_true_iff in Hd as [HFI Harm].
      unfold faults_after_enqueue in Hflt. rewrite HFI, Harm, H0 in Hflt.
      simpl in Hflt.
      destruct (enqueue_all_quiet pkts st1 HP Hrdy1 Hclean1 Hval1)
        as (st2 & Hrun2 & Hsent2 & Hflt2); [right; by rewrite Hflt|].
      exists st2, (item_of a true :: ((λ a, item_of a false) <$> pkts)).
      simpl enqueue_all. unfold mbind, M_bind, bind. rewrite Hrun.
      split; [exact Hrun2|].
      split; [by rewrite Hsent2, Hsent, <- app_assoc|].
      split; [simpl; by rewrite length_fmap|].
      split.
      * rewrite filter_cons_True by done.
        rewrite filter_drop_item_of_false. simpl. lia.
      * intros [Hq|Hq]; congruence.
    + destruct (IH st1 HP Hrdy1 Hclean1 Hval1)
        as (st2 & items & Hrun2 & Hsent2 & Hlen & Hone & Hquiet).
      exists st2, (item_of a false :: items).
      simpl enqueue_all. unfold mbind, M_bind, bind. rewrite Hrun.
      split; [exact Hrun2|].
      split; [by rewrite Hsent2, Hsent, <- app_assoc|].
      split; [simpl; by rewrite Hlen|].
      rewrite filter_cons_False by done.
      split; [exact Hone|].
      intros Hq. destruct (faults_after_enqueue_quiet _ Hq) as [_ Hf].
      rewrite Hf in Hflt.
      destruct Hquiet as [Hnone Hsame]; [by rewrite Hflt|].
      split; [exact Hnone | congruence].
Qed.

(** X13.  Queueing progress is counted per MsgBuffer: after a run of
    [enqueue_pkt_tx_burst_st] calls, [pkts_queued] of a MsgBuffer has grown by
    the number of calls that named it (no other member of it has changed),
    and the packet headers in memory are untouched. *)
Theorem enqueue_all_counts_per_msgbuf (pkts : list enqueue_args) :
  ∀ (st : State) (p : Z) (m : MsgBuffer),
  kPostlist ≤ size_t_max →
  tx_ready st →
  tx_clean st →
  Forall (valid_args (mem st)) pkts →
  msgbufs (mem st) !! p = Some m →
  0 ≤ pkts_queued m →
  pkts_queued m + Z.of_nat (length (filter (λ a, arg_tx_msgbuf a = p) pkts))
    ≤ size_t_max →
  ∃ st',
    enqueue_all pkts st = Ok tt st'
    ∧ msgbufs (mem st') !! p
      = Some (MsgBuffer_set_pkts_queued
                (pkts_queued m
                 + Z.of_nat (length (filter (λ a, arg_tx_msgbuf a = p) pkts))) m)
    ∧ pkthdrs (mem st') = pkthdrs (mem st).
Proof.
  induction pkts as [|a pkts IH]; intros st p m HP Hrdy Hclean Hval Hp Hq Hmax.
  - exists st. simpl. rewrite Z.add_0_r. split; [done|]. split; [|done].
    rewrite Hp. by destruct m.
  - inversion Hval as [|? ? Ha Hrest]; subst.
    destruct (enqueue_step_gen st a HP Hrdy Hclean Ha)
      as (st1 & m0 & Hrun & Hrdy1 & Hclean1 & Hm0 & Hmem & _).
    assert (Forall (valid_args (mem st1)) pkts) as Hval1.
    { rewrite Hmem. eapply Forall_impl; [exact Hrest|].
      intros b. by apply valid_args_after_enqueue. }
    simpl enqueue_all. unfold mbind, M_bind, bind. rewrite Hrun.
    destruct (decide (arg_tx_msgbuf a = p)) as [Heq|Hne].
    + rewrite filter_cons_True in Hmax |- * by done. simpl length in Hmax |- *.
      assert (m0 = m) as -> by congruence.
      destruct (IH st1 p (MsgBuffer_set_pkts_queued (pkts_queued m + 1) m)
                  HP Hrdy1 Hclean1 Hval1)
        as (st2 & Hrun2 & Hp2 & Hh2).
      { rewrite Hmem, Heq. simpl. rewrite lookup_insert_eq.
        by rewrite size_t_wrap_small by lia. }
      { simpl. lia. }
      { simpl. lia. }
      exists st2. split; [exact Hrun2|]. split; [|by rewrite Hh2, Hmem].
      rewrite Hp2. simpl. f_equal. unfold MsgBuffer_set_pkts_queued. simpl.
      f_equal. lia.
    + rewrite filter_cons_False in Hmax |- * by done.
      destruct (IH st1 p m HP Hrdy1 Hclean1 Hval1) as (st2 & Hrun2 & Hp2 & Hh2);
        [ rewrite Hmem; simpl; by rewrite lookup_insert_ne | done | done | ].
      exists st2. split; [exact Hrun2|]. split; [exact Hp2|].
      by rewrite Hh2, Hmem.
Qed.

(** X14.  [tx_burst_now_st] leaves nothing waiting and counts no progress: it
    sends its header-only packet after every packet enqueued before it, after
    the call all packets sent so far have been handed to the transport, and
    no MsgBuffer (so no [pkts_queued]), no packet header, neither the fault
    state nor the allocator has changed. *)
Theorem tx_burst_now_st_flushes_all (st : State) (ri mb : Z) :
  kPostlist ≤ size_t_max →
  tx_ready st →
  valid_op (mem st) (OpNow ri mb) →
  ∃ st' ctrl,
    tx_burst_now_st ri mb st = Ok tt st'
    ∧ same_packet (OpNow ri mb) ctrl
    ∧ sent_items st' = sent_items st ++ [ctrl]
    ∧ burst_items (trace st') = sent_items st'
    ∧ tx_batch_i (rpc st') = 0
    ∧ mem st' = mem st
    ∧ faults (rpc st') = faults (rpc st)
    ∧ huge_alloc (rpc st') = huge_alloc (rpc st).
Proof.
  intros HP (Hcr & Hi & Hlen & Hc) (Hri & Hmb & m & Hm & Hty).
  assert (Z.to_nat (tx_batch_i (rpc st)) < length (tx_burst_arr (rpc st)))%nat
    as Hlt by lia.
  destruct (lookup_lt_is_Some_2 _ _ Hlt) as [it Hit].
  rewrite (tx_burst_now_st_run _ _ _ _ _ Hcr Hri Hmb Hi HP Hit Hm Hty).
  eexists _, {| routing_info := ri; msg_buffer := mb; offset := 0;
                data_bytes := 0; drop := drop it |}.
  split; [reflexivity|]. cbv zeta. split; [done|].
  unfold sent_items. simpl. rewrite burst_items_app. simpl.
  rewrite !app_nil_r. split; [by rewrite app_assoc | done].
Qed.

(** The datapath TX functions do not run in a background thread: when
    [in_background] holds, [enqueue_pkt_tx_burst_st] and [tx_burst_now_st]
    stop at their first assertion, whatever their arguments, before they
    touch the batch array. *)
Lemma tx_refused_in_background (st : State) :
  in_background st = Ok true st →
  (∀ ri mb off db,
     enqueue_pkt_tx_burst_st ri mb off db st = Raise AssertionFailure)
  ∧ (∀ ri mb, tx_burst_now_st ri mb st = Raise AssertionFailure).
Proof.
  unfold in_background, in_creator, mbind, M_bind, bind, gets, ret.
  intros Hbg. injection Hbg as Hbg. apply negb_true_iff in Hbg.
  split; intros; unfold enqueue_pkt_tx_burst_st, tx_burst_now_st, in_creator,
    mbind, M_bind, bind, gets; by rewrite Hbg.
Qed.

End MoreProofs.

(** ** The theorems on the example configuration *)

Section OnExample.
Import Example.

Lemma alloc_msg_buffer_reserves_witness :
  ∃ m st', alloc_msg_buffer 3200 st0 = Ok m st'
           ∧ trace st' = [EvAlloc 3264]
           ∧ buf m = 1048576 + 16.
Proof.
  pose proof (alloc_msg_buffer_reserves (TTr:=SmallTransport) (CM:=TestCommon)
    st0 3200 ltac:(by vm_compute) ltac:(by vm_compute) ltac:(by vm_compute)
    ltac:(by vm_compute) ltac:(by vm_compute)) as H.
  vm_compute in H. destruct H as (m & st' & H1 & H2 & _ & _ & H5).
  exists m, st'. split; [exact H1|]. split; [exact H2|].
  destruct H5 as (_ & H6 & _); [discriminate | exact H6].
Defined.

(** C1, counterexample.  For [p = 0] the claimed amount
    [p + ceil (p / kMaxDataPerPkt) * sizeof (pkthdr_t)] is 0, and the code
    asks for one header slot, 16 bytes. *)
Lemma alloc_msg_buffer_zero_payload :
  ∃ m st', alloc_msg_buffer 0 st0 = Ok m st'
           ∧ trace st' = trace st0 ++ [EvAlloc 16]
           ∧ trace st'
             ≠ trace st0 ++ [EvAlloc (0 + ceil_div 0 kMaxDataPerPkt * sizeof_pkthdr_t)].
Proof.
  eexists _, _. split; [vm_compute; reflexivity|].
  split; [reflexivity | vm_compute; discriminate].
Qed.

Lemma alloc_msg_buffer_out_of_memory_witness :
  ∃ m st', alloc_msg_buffer 64 st_exhausted = Ok m st'
           ∧ buf m = nullptr ∧ mem st' = mem st_exhausted.
Proof.
  apply (alloc_msg_buffer_out_of_memory st_exhausted 64
           {| Buffer_buf := nullptr |} (2097152, 0));
    reflexivity.
Defined.

Lemma bump_credits_bounded_witness :
  ∃ st' se',
    bump_credits 0x5000 st1 = Ok tt st'
    ∧ sessions (mem st') !! 0x5000 = Some se'
    ∧ credits se' = 8.
Proof.
  destruct (bump_credits_bounded (CM:=TestCommon)
              st1 0x5000 se_client)
    as [H _]; [reflexivity | reflexivity | by vm_compute | by vm_compute |].
  destruct H as (st' & se' & H1 & H2 & H3 & _); [by vm_compute|].
  by exists st', se'.
Defined.

Lemma bury_frees_iff_dynamic_witness :
  (∃ st', bury_sslot_tx_msgbuf 0x4100 st1 = Ok tt st'
          ∧ trace st' = [EvFreeBuf {| Buffer_buf := 0x100000 |}])
  ∧ (∃ st', bury_sslot_rx_msgbuf 0x4100 st1 = Ok tt st' ∧ trace st' = [])
  ∧ (∃ st', bury_sslot_rx_msgbuf_nofree 0x4100 st1 = Ok tt st' ∧ trace st' = []).
Proof.
  destruct (bury_frees_iff_dynamic (CM:=TestCommon)
              st1 0x4100 sl_server)
    as (Htx & Hrx & Hnofree); [by vm_compute | reflexivity |].
  split; [|split].
  - destruct Htx as (st' & sl' & H1 & H2 & _).
    + intros _. exists (msgbuf_at 0x100000 0x100000). split; [reflexivity|].
      intros _. split; [by vm_compute | reflexivity].
    + exists st'. split; [exact H1 | exact H2].
  - destruct Hrx as (st' & sl' & H1 & H2 & _).
    + intros Hdyn. by vm_compute in Hdyn.
    + exists st'. split; [exact H1 | exact H2].
  - vm_compute in Hnofree. destruct Hnofree as (st' & sl' & H1 & H2 & _).
    exists st'. split; [exact H1 | exact H2].
Defined.

Lemma release_respone_buries_and_frees_slot_witness :
  ∃ st' sl' se',
    release_respone 0x4000 st1 = Ok tt st'
    ∧ trace st' = [EvFreeBuf {| Buffer_buf := 0x110000 |}]
    ∧ sslots (mem st') !! 0x4000 = Some sl'
    ∧ buf (rx_msgbuf sl') = nullptr
    ∧ sessions (mem st') !! 0x5000 = Some se'
    ∧ sslot_free_vec se' = [0; 1; 3].
Proof.
  destruct (release_respone_buries_and_frees_slot
              (CM:=TestCommon) st1 0x4000 sl_client se_client)
    as (st' & sl' & se' & H1 & H2 & H3 & H4 & _ & _ & H7 & H8 & _);
    [by vm_compute | reflexivity | reflexivity | by vm_compute | reflexivity
    | by vm_compute | reflexivity | reflexivity |].
  by exists st', sl', se'.
Defined.

Lemma tx_burst_now_st_immediate_burst_witness :
  ∃ st' ctrl,
    tx_burst_now_st 0x3000 0x2100 st1 = Ok tt st'
    ∧ msg_buffer ctrl = 0x2100
    ∧ data_bytes ctrl = 0
    ∧ trace st' = trace st1 ++ [EvTxBurst [ctrl]]
    ∧ tx_batch_i (rpc st') = 0.
Proof.
  destruct (tx_burst_now_st_immediate_burst (CM:=TestCommon)
              st1 0x3000 0x2100 item0 (msgbuf_at nullptr 0x200000))
    as (st' & ctrl & H1 & Hri & Hmb & Hoff & Hdb & H2 & H3 & H4);
    [reflexivity | by vm_compute | by vm_compute | by vm_compute | by vm_compute
    | reflexivity | reflexivity | reflexivity |].
  exists st', ctrl. split; [exact H1|]. split; [exact Hmb|].
  split; [exact Hdb|]. split; [apply H4; reflexivity | exact H3].
Defined.

(** C3, counterexample.  A data packet is waiting in the batch when the
    credit return is sent: the burst handed to the transport holds both, the
    data packet first. *)
Lemma tx_burst_now_st_flushes_pending :
  ∃ st' st'',
    enqueue_pkt_tx_burst_st 0x3000 0x2000 0 64 st1 = Ok tt st'
    ∧ tx_batch_i (rpc st') = 1
    ∧ trace st' = []
    ∧ tx_burst_now_st 0x3000 0x2100 st' = Ok tt st''
    ∧ trace st'' = [EvTxBurst [item_of data_pkt false; cr_item false]]
    ∧ trace st'' ≠ trace st' ++ [EvTxBurst [cr_item false]].
Proof.
  eexists _, _. split; [vm_compute; reflexivity|].
  split; [reflexivity|]. split; [reflexivity|].
  split; [vm_compute; reflexivity|].
  split; [reflexivity | discriminate].
Qed.

Lemma tx_burst_now_st_keeps_drop_witness :
  ∃ st' it',
    tx_burst_now_st 0x3000 0x2100 st1 = Ok tt st'
    ∧ tx_burst_arr (rpc st') !! 0%nat = Some it'
    ∧ drop it' = drop item0.
Proof.
  destruct (tx_burst_now_st_keeps_drop (TTr:=SmallTransport) (CM:=TestCommon)
              st1 0x3000 0x2100 item0 (msgbuf_at nullptr 0x200000))
    as (st' & it' & pending & H1 & H2 & _ & _ & _ & _ & H3 & _);
    [reflexivity | by vm_compute | by vm_compute | by vm_compute | by vm_compute
    | reflexivity | reflexivity | reflexivity |].
  by exists st', it'.
Defined.

(** The drop flag that [tx_burst_now_st] inherits can be a stale [true]: with
    the fault armed at countdown 1, the second data packet is dropped and
    fills the batch ([kPostlist = 2]), which is flushed; the credit return
    sent next reuses slot 0, whose flag is [false], and a second credit
    return sent after one more data packet reuses slot 1 and goes out with
    [drop = true]. *)
Example tx_burst_now_st_inherits_stale_drop :
  ∃ st',
    (enqueue_all [data_pkt; data_pkt; data_pkt] ;;
     tx_burst_now_st 0x3000 0x2100) (st_armed 1) = Ok tt st'
    ∧ trace st' =
      [EvTxBurst [item_of data_pkt false; item_of data_pkt true];
       EvTxBurst [item_of data_pkt false; cr_item true]]
    ∧ drop_tx_local (faults (rpc st')) = false.
Proof. eexists. split; [vm_compute; reflexivity|]. by split. Qed.

Lemma enqueue_pkt_tx_burst_st_counts_packet_witness :
  ∃ st' m' it',
    enqueue_pkt_tx_burst_st 0x3000 0x2000 0 64 (st_armed 0) = Ok tt st'
    ∧ msgbufs (mem st') !! 0x2000 = Some m'
    ∧ pkts_queued m' = 1
    ∧ tx_burst_arr (rpc st') !! 0%nat = Some it'
    ∧ drop it' = true.
Proof.
  destruct (enqueue_pkt_tx_burst_st_counts_packet (TTr:=SmallTransport) (CM:=TestCommon)
              (st_armed 0) 0x3000 0x2000 0 64 item0 (msgbuf_at 0x100000 0x100000))
    as (st' & it' & H1 & H2 & _ & H3 & H4);
    [reflexivity | by vm_compute | by vm_compute | by vm_compute | by vm_compute
    | reflexivity | reflexivity | by vm_compute | by vm_compute
    | intros H; by vm_compute in H |].
  eexists st', _, it'. split; [exact H1|]. split; [exact H2|].
  split; [reflexivity|]. split; [exact H3 | exact H4].
Defined.

(** Arming [st1] with countdown 3 gives [st_armed 3]. *)
Example fault_inject_drop_tx_local_st_3 :
  fault_inject_drop_tx_local_st 3 st1 = Ok tt (st_armed 3).
Proof. reflexivity. Qed.

Lemma drop_tx_local_one_shot_witness :
  ∃ st',
    enqueue_all [data_pkt; data_pkt; data_pkt; data_pkt; data_pkt] (st_armed 3)
    = Ok tt st'
    ∧ drop <$> sent_items st' = [false; false; false; true; false]
    ∧ drop_tx_local (faults (rpc st')) = false.
Proof.
  destruct (drop_tx_local_one_shot (TTr:=SmallTransport) (CM:=TestCommon)
              [data_pkt; data_pkt; data_pkt; data_pkt; data_pkt] (st_armed 3) 3)
    as (st' & H1 & H2 & H3 & _);
    [reflexivity | by vm_compute
    | repeat split; by vm_compute
    | repeat (apply Forall_cons_2;
                [split; [by vm_compute | split; [by vm_compute | by eexists]]|]);
      apply Forall_nil_2
    | reflexivity | reflexivity |].
  exists st'. split; [exact H1|]. split; [by rewrite H2 | by apply H3].
Defined.

Lemma kMaxMsgSize_fits_header_fields_witness :
  kMaxMsgSize = 8257536
  ∧ kMaxMsgSize ≤ 2 ^ 24
  ∧ kMaxMsgSize ≤ 2 ^ 13 * 1024.
Proof.
  destruct (kMaxMsgSize_fits_header_fields
              (TTr:=SmallTransport) (HA:=BumpAllocator) (CM:=TestCommon))
    as (H1 & _ & _ & H2 & H3);
    [by vm_compute | by vm_compute | by vm_compute | by vm_compute
    | by vm_compute | by vm_compute | reflexivity | reflexivity |].
  split; [exact H1|]. split; [exact H2 | exact H3].
Defined.

(** ** The further properties on the example configuration *)

Ltac example_ready :=
  repeat split; by vm_compute.

Ltac example_valid :=
  repeat (apply Forall_cons_2;
            [split; [by vm_compute | split; [by vm_compute | by eexists]]|]);
  apply Forall_nil_2.

Lemma alloc_then_free_round_trip_witness :
  ∃ m st1 st2,
    alloc_msg_buffer 3200 st0 = Ok m st1
    ∧ free_msg_buffer m st1 = Ok tt st2
    ∧ trace st2 = [EvAlloc 3264; EvFreeBuf {| Buffer_buf := 1048576 |}].
Proof.
  destruct (alloc_then_free_round_trip (TTr:=SmallTransport) (CM:=TestCommon)
              st0 3200 {| Buffer_buf := 1048576 |} (1051840, 1045312))
    as (m & s1 & s2 & H1 & H2 & H3 & _); [reflexivity | by vm_compute |].
  by exists m, s1, s2.
Defined.

Lemma alloc_msg_buffer_packet_count_witness :
  ∃ m st',
    alloc_msg_buffer 3200 st0 = Ok m st'
    ∧ 3200 ≤ max_num_pkts m * 1024
    ∧ (max_num_pkts m - 1) * 1024 < 3200.
Proof.
  destruct (alloc_msg_buffer_packet_count (TTr:=SmallTransport) (CM:=TestCommon)
              st0 3200 {| Buffer_buf := 1048576 |} (1051840, 1045312))
    as (m & s1 & H1 & _ & _ & _ & _ & H2 & H3);
    [by vm_compute | by vm_compute | by vm_compute | reflexivity | by vm_compute |].
  exists m, s1. split; [exact H1|]. split; [exact H2 | by apply H3].
Defined.

Lemma resize_msg_buffer_within_allocation_witness :
  ∃ st',
    resize_msg_buffer 0x2000 10 st1 = Ok tt st'
    ∧ data_size <$> msgbufs (mem st') !! 0x2000 = Some 10
    ∧ num_pkts <$> msgbufs (mem st') !! 0x2000 = Some 1.
Proof.
  destruct (resize_msg_buffer_within_allocation
              (TTr:=SmallTransport) (CM:=TestCommon) (MB:=TestMsgBufferOps)
              st1 0x2000 10 (msgbuf_at 0x100000 0x100000))
    as [H _];
    [by vm_compute | by vm_compute | reflexivity | by vm_compute | reflexivity
    | by vm_compute | by vm_compute | by vm_compute |].
  destruct H as (st' & n & H1 & Hn & _ & _ & H2 & _); [by vm_compute|].
  exists st'. split; [exact H1|]. rewrite H2, Hn. by split.
Defined.

Lemma is_usr_session_num_in_range_iff_witness :
  is_usr_session_num_in_range [0x5000; nullptr] 1 = true
  ∧ is_usr_session_num_in_range [0x5000; nullptr] (-1) = false
  ∧ is_usr_session_num_in_range [0x5000; nullptr] 2 = false.
Proof.
  split; [|by split].
  apply (is_usr_session_num_in_range_iff [0x5000; nullptr] 1); [by vm_compute|].
  split; [by vm_compute | by eexists].
Defined.

Lemma bury_sslot_rx_msgbuf_idempotent_witness :
  ∃ st',
    bury_sslot_rx_msgbuf 0x4000 st1 = Ok tt st'
    ∧ trace st' = [EvFreeBuf {| Buffer_buf := 0x110000 |}]
    ∧ bury_sslot_rx_msgbuf 0x4000 st' = Ok tt st'.
Proof.
  destruct (bury_sslot_rx_msgbuf_idempotent (CM:=TestCommon) st1 0x4000 sl_client)
    as (st' & sl' & H1 & _ & _ & H2 & _);
    [by vm_compute | reflexivity | intros _; split; [by vm_compute | reflexivity] |].
  exists st'. split; [exact H1|]. split; [|exact H2].
  vm_compute in H1. by injection H1 as <-.
Defined.

Lemma bury_sslot_tx_msgbuf_idempotent_witness :
  ∃ st',
    bury_sslot_tx_msgbuf 0x4100 st1 = Ok tt st'
    ∧ trace st' = [EvFreeBuf {| Buffer_buf := 0x100000 |}]
    ∧ bury_sslot_tx_msgbuf 0x4100 st' = Ok tt st'.
Proof.
  destruct (bury_sslot_tx_msgbuf_idempotent (CM:=TestCommon) st1 0x4100 sl_server)
    as (st' & H1 & _ & H2 & _); [by vm_compute | reflexivity | |].
  { intros _. exists (msgbuf_at 0x100000 0x100000). split; [reflexivity|].
    intros _. split; [by vm_compute | reflexivity]. }
  exists st'. split; [exact H1|]. split; [|exact H2].
  vm_compute in H1. by injection H1 as <-.
Defined.

Lemma bury_sslot_tx_msgbuf_nofree_keeps_buffer_witness :
  ∃ st' st'',
    bury_sslot_tx_msgbuf_nofree 0x4100 st1 = Ok tt st'
    ∧ trace st' = []
    ∧ free_msg_buffer (msgbuf_at 0x100000 0x100000) st' = Ok tt st''
    ∧ trace st'' = [EvFreeBuf {| Buffer_buf := 0x100000 |}].
Proof.
  destruct (bury_sslot_tx_msgbuf_nofree_keeps_buffer (CM:=TestCommon)
              st1 0x4100 sl_server (msgbuf_at 0x100000 0x100000))
    as (st' & sl' & st'' & H1 & H2 & _ & _ & _ & _ & _ & H3 & H4);
    [by vm_compute | reflexivity | reflexivity | reflexivity | reflexivity |].
  by exists st', st''.
Defined.


Lemma bump_credits_n_until_full_witness :
  (∃ st' se', bump_credits_n 1 0x5000 st1 = Ok tt st'
              ∧ sessions (mem st') !! 0x5000 = Some se' ∧ credits se' = 8)
  ∧ bump_credits_n 2 0x5000 st1 = Raise AssertionFailure.
Proof.
  split.
  - destruct (bump_credits_n_until_full (CM:=TestCommon) 1 st1 0x5000 se_client)
      as [H _]; [reflexivity | reflexivity | by vm_compute | by vm_compute |].
    destruct H as (st' & se' & H1 & H2 & H3 & _); [by vm_compute|].
    by exists st', se'.
  - destruct (bump_credits_n_until_full (CM:=TestCommon) 2 st1 0x5000 se_client)
      as [_ H]; [reflexivity | reflexivity | by vm_compute | by vm_compute |].
    apply H. by vm_compute.
Defined.

Lemma enqueue_all_full_batches_witness :
  ∃ st' b1 b2,
    enqueue_all [data_pkt; data_pkt; data_pkt; data_pkt; data_pkt] st1 = Ok tt st'
    ∧ bursts (trace st') = [b1; b2]
    ∧ length b1 = 2%nat ∧ length b2 = 2%nat
    ∧ tx_batch_i (rpc st') = 1.
Proof.
  destruct (enqueue_all_full_batches (TTr:=SmallTransport) (CM:=TestCommon)
              [data_pkt; data_pkt; data_pkt; data_pkt; data_pkt] st1)
    as (st' & new & H1 & H2 & H3 & H4 & H5);
    [by vm_compute | example_ready | intros H; by vm_compute in H | example_valid |].
  assert (Z.of_nat (length new) = 2) as Hlen by (rewrite H4; reflexivity).
  destruct new as [|b1 [|b2 [|b3 new]]]; simpl length in Hlen; try lia.
  exists st', b1, b2. split; [exact H1|]. split; [exact H2|].
  inversion H3 as [|? ? Hb1 H3']; subst. inversion H3' as [|? ? Hb2 _]; subst.
  split; [exact Hb1|]. split; [exact Hb2 | by rewrite H5].
Defined.

Lemma run_ops_in_order_witness :
  ∃ st' i1 i2 i3,
    run_ops [OpEnqueue data_pkt; OpNow 0x3000 0x2100; OpEnqueue data_pkt] st1
    = Ok tt st'
    ∧ sent_items st' = [i1; i2; i3]
    ∧ msg_buffer i1 = 0x2000 ∧ msg_buffer i2 = 0x2100 ∧ msg_buffer i3 = 0x2000.
Proof.
  destruct (run_ops_in_order (TTr:=SmallTransport) (CM:=TestCommon)
              [OpEnqueue data_pkt; OpNow 0x3000 0x2100; OpEnqueue data_pkt] st1)
    as (st' & items & H1 & H2 & H3 & _);
    [by vm_compute | example_ready | intros H; by vm_compute in H | |].
  { apply Forall_cons_2;
      [split; [by vm_compute | split; [by vm_compute | by eexists]]|].
    apply Forall_cons_2;
      [split; [by vm_compute | split; [by vm_compute|]];
       exists (msgbuf_at nullptr 0x200000); by split|].
    apply Forall_cons_2;
      [split; [by vm_compute | split; [by vm_compute | by eexists]]|].
    apply Forall_nil_2. }
  inversion H3 as [|? i1 ? ? Hs1 H3a]; subst.
  inversion H3a as [|? i2 ? ? Hs2 H3b]; subst.
  inversion H3b as [|? i3 ? ? Hs3 H3c]; subst.
  inversion H3c; subst.
  destruct Hs1 as (_ & Hm1 & _), Hs2 as (_ & Hm2 & _), Hs3 as (_ & Hm3 & _).
  exists st', i1, i2, i3. split; [exact H1|]. split; [exact H2|]. by repeat split.
Defined.

Lemma enqueue_all_drops_at_most_one_witness :
  ∃ st' items,
    enqueue_all [data_pkt; data_pkt; data_pkt] (st_armed 0) = Ok tt st'
    ∧ sent_items st' = items
    ∧ length items = 3%nat
    ∧ (length (filter (λ it, drop it = true) items) ≤ 1)%nat.
Proof.
  destruct (enqueue_all_drops_at_most_one (TTr:=SmallTransport) (CM:=TestCommon)
              [data_pkt; data_pkt; data_pkt] (st_armed 0))
    as (st' & items & H1 & H2 & H3 & H4 & _);
    [by vm_compute | example_ready | intros H; by vm_compute in H | example_valid |].
  exists st', items. split; [exact H1|]. split; [exact H2|]. by split.
Defined.

Lemma enqueue_all_counts_per_msgbuf_witness :
  ∃ st',
    enqueue_all [data_pkt; data_pkt; data_pkt] st1 = Ok tt st'
    ∧ pkts_queued <$> msgbufs (mem st') !! 0x2000 = Some 3
    ∧ pkts_queued <$> msgbufs (mem st') !! 0x2100 = Some 0.
Proof.
  destruct (enqueue_all_counts_per_msgbuf (TTr:=SmallTransport) (CM:=TestCommon)
              [data_pkt; data_pkt; data_pkt] st1 0x2000 (msgbuf_at 0x100000 0x100000))
    as (st' & H1 & H2 & _);
    [by vm_compute | example_ready | intros H; by vm_compute in H | example_valid
    | reflexivity | by vm_compute | by vm_compute |].
  exists st'. split; [exact H1|]. split; [by rewrite H2|].
  vm_compute in H1. by injection H1 as <-.
Defined.

Lemma tx_burst_now_st_flushes_all_witness :
  ∃ st' ctrl,
    tx_burst_now_st 0x3000 0x2100 st1 = Ok tt st'
    ∧ sent_items st' = [ctrl]
    ∧ burst_items (trace st') = [ctrl]
    ∧ mem st' = mem st1.
Proof.
  destruct (tx_burst_now_st_flushes_all (TTr:=SmallTransport) (CM:=TestCommon)
              st1 0x3000 0x2100)
    as (st' & ctrl & H1 & _ & H2 & H3 & _ & H4 & _);
    [by vm_compute | example_ready |
     split; [by vm_compute | split; [by vm_compute|]];
     exists (msgbuf_at nullptr 0x200000); by split |].
  exists st', ctrl. split; [exact H1|]. split; [exact H2|].
  split; [by rewrite H3, H2 | exact H4].
Defined.

Lemma tx_refused_in_background_witness :
  enqueue_pkt_tx_burst_st 0x3000 0x2000 0 64 st_background = Raise AssertionFailure
  ∧ tx_burst_now_st 0x3000 0x2100 st_background = Raise AssertionFailure.
Proof.
  destruct (tx_refused_in_background (TTr:=SmallTransport) (CM:=TestCommon)
              st_background) as [H1 H2]; [reflexivity|].
  split; [apply H1 | apply H2].
Defined.

Lemma alloc_request_size_kMaxMsgSize_witness :
  alloc_request_size kMaxMsgSize ≤ kMaxClassSize.
Proof.
  apply (alloc_request_size_kMaxMsgSize
           (TTr:=SmallTransport) (HA:=BumpAllocator) (CM:=TestCommon));
    [by vm_compute | by vm_compute | by vm_compute | by vm_compute
    | split; by vm_compute].
Defined.

End OnExample.

End ERpc.
